(** * Annotation engine of [api/generate-images.ts]

    A shallow embedding of the label selector, the two annotation renderers
    and the request handler, followed by the properties of the
    specification that concern them.

    Conventions of the embedding.
    - A dataset is a JavaScript object whose values are numbers.  It is
      represented by its own enumerable properties in the order in which
      [Object.entries] lists them; the values are integers (the data model
      of the specification: integer percentages, range not enforced), so
      that [>] on them is the order of [Z].  The template literal
      [`${percentage}%`] prints the decimal notation of a safe integer; what
      it prints for a larger number is left to the engine.
    - An exception is represented by what the [catch] clauses read from it;
      what is written to the console is left out.
    - The 2D context is a record of the attributes the code assigns,
      together with the list of drawing operations performed so far, oldest
      first.  Every text operation records the attributes in force when it
      was issued. *)

From Stdlib Require Import ZArith List String Ascii Bool Lia Permutation.
From Stdlib Require Import DecimalString.
Import ListNotations.

Open Scope string_scope.
Open Scope Z_scope.

(* ------------------------------------------------------------------ *)
(** ** Exceptions and completions *)

(** A thrown value: an instance of [Error] (a [TypeError] is one) with its
    [message], or any other value with the result of [String(err)]. *)
Inductive Thrown : Type :=
| ErrorObject (message : string)
| OtherValue (asString : string).

(** The outcome of a block of statements, and of an awaited promise. *)
Inductive Completion (A : Type) : Type :=
| Completes (a : A)
| Throws (e : Thrown).

Arguments Completes {A} a.
Arguments Throws {A} e.

Definition bind {A B : Type} (c : Completion A) (k : A -> Completion B)
  : Completion B :=
  match c with
  | Completes a => k a
  | Throws e => Throws e
  end.

Notation "x <- c ;; k" := (bind c (fun x => k))
  (at level 61, c at next level, right associativity).

(** [try { c } catch (err) { h err }] *)
Definition tryCatch {A : Type} (c : Completion A) (h : Thrown -> Completion A)
  : Completion A :=
  match c with
  | Completes a => Completes a
  | Throws e => h e
  end.

(** [err instanceof Error ? err.message : String(err)] *)
Definition errorMessage (err : Thrown) : string :=
  match err with
  | ErrorObject message => message
  | OtherValue asString => asString
  end.

(* ------------------------------------------------------------------ *)
(** ** Objects *)

(** A dataset as received ([AnimalData], [BrainData] at run time). *)
Definition JsObject : Type := list (string * Z).

(** [Object.entries(data)] *)
Definition entries (data : JsObject) : list (string * Z) := data.

Definition keys (data : JsObject) : list string := map fst data.

(** [data[k]] on own properties. *)
Fixpoint getOwn {V : Type} (o : list (string * V)) (k : string) : option V :=
  match o with
  | [] => None
  | (k', v) :: rest => if String.eqb k k' then Some v else getOwn rest k
  end.

(** An object has each property name once. *)
Definition wfObject (data : JsObject) : Prop := NoDup (keys data).

(** The names every object literal inherits from [Object.prototype]. *)
Definition objectPrototypeKeys : list string :=
  [ "constructor"; "__defineGetter__"; "__defineSetter__"; "hasOwnProperty";
    "__lookupGetter__"; "__lookupSetter__"; "isPrototypeOf";
    "propertyIsEnumerable"; "toString"; "valueOf"; "__proto__";
    "toLocaleString" ].

Record Point : Type := { px : Z; py : Z }.

(** The value of [positions[name]]: an entry of the table, a member
    inherited from [Object.prototype], or [undefined]. *)
Inductive PropValue : Type :=
| PPoint (p : Point)
| PInherited (name : string)
| PUndefined.

Definition getProp (table : list (string * Point)) (name : string) : PropValue :=
  match getOwn table name with
  | Some p => PPoint p
  | None =>
      if existsb (String.eqb name) objectPrototypeKeys
      then PInherited name
      else PUndefined
  end.

(** [name === highestName], where [highestName] may be [null]. *)
Definition strictEq (name : string) (highestName : option string) : bool :=
  match highestName with
  | Some h => String.eqb name h
  | None => false
  end.

(** Decimal notation of an integer. *)
Definition string_of_Z (z : Z) : string := NilZero.string_of_int (Z.to_int z).

(** [Number.isSafeInteger]: the integers up to 2^53 - 1 in absolute value.
    Each of them is a JavaScript number, and a template literal prints it in
    decimal notation.  Beyond them a number prints with rounded digits, and
    from 1e21 on in exponent notation. *)
Definition isSafeInteger (v : Z) : bool := Z.abs v <=? 2 ^ 53 - 1.

Definition dquote : string := String "034"%char EmptyString.

(* ------------------------------------------------------------------ *)
(** ** The canvas *)

Record Image : Type := {
  imgWidth : Z;
  imgHeight : Z;
  imgSource : string
}.

Record TextState : Type := {
  font : string;
  fillStyle : string;
  textAlign : string;
  textBaseline : string;
  shadowColor : string;
  shadowBlur : Z;
  shadowOffsetX : Z;
  shadowOffsetY : Z
}.

Inductive DrawOp : Type :=
| OpDrawImage (img : Image) (dx dy : Z)
| OpFillText (st : TextState) (text : string) (x y : Z).

Record Context2D : Type := {
  state : TextState;
  ops : list DrawOp
}.

Record Canvas : Type := {
  width : Z;
  height : Z;
  context : Context2D
}.

(** Attributes of a context that has just been created. *)
Definition defaultState : TextState :=
  {| font := "10px sans-serif";
     fillStyle := "#000000";
     textAlign := "start";
     textBaseline := "alphabetic";
     shadowColor := "rgba(0, 0, 0, 0)";
     shadowBlur := 0;
     shadowOffsetX := 0;
     shadowOffsetY := 0 |}.

Definition createCanvas (w h : Z) : Canvas :=
  {| width := w; height := h;
     context := {| state := defaultState; ops := [] |} |}.

Definition getContext (canvas : Canvas) : Context2D := context canvas.

(** The canvas as seen once [ctx], obtained from it, reached a later state. *)
Definition withContext (canvas : Canvas) (ctx : Context2D) : Canvas :=
  {| width := width canvas; height := height canvas; context := ctx |}.

(** An assignment to an attribute is recorded as made.  The canvas keeps
    the values the code assigns (fonts, colors and alignments it can
    parse); it would ignore a value it cannot parse. *)
Definition updState (f : TextState -> TextState) (ctx : Context2D) : Context2D :=
  {| state := f (state ctx); ops := ops ctx |}.

Definition setFont (v : string) : Context2D -> Context2D :=
  updState (fun s =>
    {| font := v; fillStyle := fillStyle s; textAlign := textAlign s;
       textBaseline := textBaseline s; shadowColor := shadowColor s;
       shadowBlur := shadowBlur s; shadowOffsetX := shadowOffsetX s;
       shadowOffsetY := shadowOffsetY s |}).

Definition setFillStyle (v : string) : Context2D -> Context2D :=
  updState (fun s =>
    {| font := font s; fillStyle := v; textAlign := textAlign s;
       textBaseline := textBaseline s; shadowColor := shadowColor s;
       shadowBlur := shadowBlur s; shadowOffsetX := shadowOffsetX s;
       shadowOffsetY := shadowOffsetY s |}).

Definition setTextAlign (v : string) : Context2D -> Context2D :=
  updState (fun s =>
    {| font := font s; fillStyle := fillStyle s; textAlign := v;
       textBaseline := textBaseline s; shadowColor := shadowColor s;
       shadowBlur := shadowBlur s; shadowOffsetX := shadowOffsetX s;
       shadowOffsetY := shadowOffsetY s |}).

Definition setTextBaseline (v : string) : Context2D -> Context2D :=
  updState (fun s =>
    {| font := font s; fillStyle := fillStyle s; textAlign := textAlign s;
       textBaseline := v; shadowColor := shadowColor s;
       shadowBlur := shadowBlur s; shadowOffsetX := shadowOffsetX s;
       shadowOffsetY := shadowOffsetY s |}).

Definition setShadowColor (v : string) : Context2D -> Context2D :=
  updState (fun s =>
    {| font := font s; fillStyle := fillStyle s; textAlign := textAlign s;
       textBaseline := textBaseline s; shadowColor := v;
       shadowBlur := shadowBlur s; shadowOffsetX := shadowOffsetX s;
       shadowOffsetY := shadowOffsetY s |}).

Definition setShadowBlur (v : Z) : Context2D -> Context2D :=
  updState (fun s =>
    {| font := font s; fillStyle := fillStyle s; textAlign := textAlign s;
       textBaseline := textBaseline s; shadowColor := shadowColor s;
       shadowBlur := v; shadowOffsetX := shadowOffsetX s;
       shadowOffsetY := shadowOffsetY s |}).

Definition setShadowOffsetX (v : Z) : Context2D -> Context2D :=
  updState (fun s =>
    {| font := font s; fillStyle := fillStyle s; textAlign := textAlign s;
       textBaseline := textBaseline s; shadowColor := shadowColor s;
       shadowBlur := shadowBlur s; shadowOffsetX := v;
       shadowOffsetY := shadowOffsetY s |}).

Definition setShadowOffsetY (v : Z) : Context2D -> Context2D :=
  updState (fun s =>
    {| font := font s; fillStyle := fillStyle s; textAlign := textAlign s;
       textBaseline := textBaseline s; shadowColor := shadowColor s;
       shadowBlur := shadowBlur s; shadowOffsetX := shadowOffsetX s;
       shadowOffsetY := v |}).

(** [ctx.drawImage(img, dx, dy)] *)
Definition drawImage (img : Image) (dx dy : Z) (ctx : Context2D) : Context2D :=
  {| state := state ctx; ops := ops ctx ++ [OpDrawImage img dx dy] |}.

(** [ctx.fillText(text, x, y)].  A coordinate is [None] when the argument is
    [undefined]; the canvas then draws nothing and does not throw. *)
Definition fillText (text : string) (x y : option Z) (ctx : Context2D)
  : Context2D :=
  match x, y with
  | Some x, Some y =>
      {| state := state ctx; ops := ops ctx ++ [OpFillText (state ctx) text x y] |}
  | _, _ => ctx
  end.

(* ------------------------------------------------------------------ *)
(** ** Image processing logic *)

Definition drawTextWithShadow (ctx : Context2D) (text : string)
  (x y : option Z) (font fillStyle textAlign textBaseline : string)
  : Context2D :=
  let ctx := setFont font ctx in
  let ctx := setFillStyle fillStyle ctx in
  let ctx := setTextAlign textAlign ctx in
  let ctx := setTextBaseline textBaseline ctx in
  let ctx := setShadowColor "rgba(0, 0, 0, 0.8)" ctx in
  let ctx := setShadowBlur 10 ctx in
  let ctx := setShadowOffsetX 0 ctx in
  let ctx := setShadowOffsetY 0 ctx in
  let ctx := fillText text x y ctx in
  (* Reset shadow for next drawing *)
  let ctx := setShadowColor "transparent" ctx in
  let ctx := setShadowBlur 0 ctx in
  ctx.

(** One iteration of the loop that finds the highest percentage; the state
    is the pair of [highestName] and [maxPercentage]. *)
Definition updateHighest (acc : option string * Z) (entry : string * Z)
  : option string * Z :=
  let '(highestName, maxPercentage) := acc in
  let '(name, percentage) := entry in
  if percentage >? maxPercentage
  then (Some name, percentage)
  else (highestName, maxPercentage).

(** The loop, started with [highestName = null] and [maxPercentage = -1]. *)
Definition findHighest (entries : list (string * Z)) : option string * Z :=
  fold_left updateHighest entries (None, -1).

Definition fontName : string := dquote ++ "Arial Bold" ++ dquote.
Definition normalFontSize : Z := 36.
Definition highestFontSize : Z := 40.
Definition normalColor : string := "#FFFFFF".
Definition highestColor : string := "#FFFF00".

Definition mkPoint (x y : Z) : Point := {| px := x; py := y |}.

Definition animalPositions : list (string * Point) :=
  [ ("lobo",    mkPoint 250 680);
    ("aguia",   mkPoint 750 680);
    ("tubarao", mkPoint 250 970);
    ("gato",    mkPoint 750 970) ].

Definition brainPositions : list (string * Point) :=
  [ ("razao",    mkPoint 270 480);
    ("emocao",   mkPoint 740 480);
    ("pensante", mkPoint 500 310);
    ("atuante",  mkPoint 500 710) ].

Definition BASE_IMAGE_BRAIN_URL : string :=
  "https://i.postimg.cc/LXMYjwtX/Inserir-um-t-tulo-6.png".
Definition BASE_IMAGE_ANIMALS_URL : string :=
  "https://i.postimg.cc/6QDYdjPb/Design-sem-nome-17.png".

(** The style chosen for an entry inside the drawing loop. *)
Definition labelFont (isHighest : bool) : string :=
  let fontSize := if isHighest then highestFontSize else normalFontSize in
  string_of_Z fontSize ++ "px " ++ fontName.

Definition labelColor (isHighest : bool) : string :=
  if isHighest then highestColor else normalColor.

Section Engine.

(** What the environment supplies: the outcome of [loadImage] on a URL, the
    encoder behind [canvas.toDataURL], the messages of the two
    [TypeError]s the engine raises when [undefined] is destructured, and the
    text the engine prints for a number that is not a safe integer. *)
Variable loadImage : string -> Completion Image.
Variable toDataURL : Canvas -> string -> string.
Variable positionMessage : string.
Variable bodyMessage : string.
Variable largeNumberText : Z -> string.

(** [`${v}`] for a number [v] of integer value. *)
Definition numberToString (v : Z) : string :=
  if isSafeInteger v then string_of_Z v else largeNumberText v.

(** [const { x, y } = positions[name]] *)
Definition destructureXY (v : PropValue) : Completion (option Z * option Z) :=
  match v with
  | PPoint p => Completes (Some (px p), Some (py p))
  | PInherited _ => Completes (None, None)
  | PUndefined => Throws (ErrorObject positionMessage)
  end.

(** The drawing loop over the entries, for a positions table and the name
    found by the first loop. *)
Fixpoint drawLabels (positions : list (string * Point))
  (highestName : option string) (entries : list (string * Z))
  (ctx : Context2D) : Completion Context2D :=
  match entries with
  | [] => Completes ctx
  | (name, percentage) :: rest =>
      let isHighest := strictEq name highestName in
      let font := labelFont isHighest in
      let color := labelColor isHighest in
      let text := numberToString percentage ++ "%" in
      xy <- destructureXY (getProp positions name) ;;
      (* Center the text at the given coordinates *)
      drawLabels positions highestName rest
        (drawTextWithShadow ctx text (fst xy) (snd xy) font color
           "center" "middle")
  end.

(** The body of the [try] block of [generateAnimalImage] up to, and not
    including, the encoding of the canvas. *)
Definition animalCanvas (baseImageUrl : string) (data : JsObject)
  : Completion Canvas :=
  img <- loadImage baseImageUrl ;;
  let canvas := createCanvas (imgWidth img) (imgHeight img) in
  let ctx := getContext canvas in
  let ctx := drawImage img 0 0 ctx in
  let animalEntries := entries data in
  let highestAnimalName := fst (findHighest animalEntries) in
  ctx <- drawLabels animalPositions highestAnimalName animalEntries ctx ;;
  Completes (withContext canvas ctx).

Definition generateAnimalImage (baseImageUrl : string) (data : JsObject)
  : Completion string :=
  tryCatch
    (canvas <- animalCanvas baseImageUrl data ;;
     Completes (toDataURL canvas "image/png"))
    (fun err =>
       let errorMessage := errorMessage err in
       Throws (ErrorObject
                 ("Error during animal image processing: " ++ errorMessage))).

(** The same for [generateBrainImage]. *)
Definition brainCanvas (baseImageUrl : string) (data : JsObject)
  : Completion Canvas :=
  img <- loadImage baseImageUrl ;;
  let canvas := createCanvas (imgWidth img) (imgHeight img) in
  let ctx := getContext canvas in
  let ctx := drawImage img 0 0 ctx in
  let brainEntries := entries data in
  let highestBrainName := fst (findHighest brainEntries) in
  ctx <- drawLabels brainPositions highestBrainName brainEntries ctx ;;
  Completes (withContext canvas ctx).

Definition generateBrainImage (baseImageUrl : string) (data : JsObject)
  : Completion string :=
  tryCatch
    (canvas <- brainCanvas baseImageUrl data ;;
     Completes (toDataURL canvas "image/png"))
    (fun err =>
       let errorMessage := errorMessage err in
       Throws (ErrorObject
                 ("Error during brain image processing: " ++ errorMessage))).

(* ------------------------------------------------------------------ *)
(** ** Serverless function handler *)

(** [Promise.all] over the two renders.  It is fulfilled when both are, and
    rejected with the reason of the first promise to be rejected;
    [animalRejectsFirst] tells which one that is when both are rejected. *)
Definition promiseAll {A B : Type} (animalRejectsFirst : bool)
  (a : Completion A) (b : Completion B) : Completion (A * B) :=
  match a, b with
  | Completes x, Completes y => Completes (x, y)
  | Throws e, Completes _ => Throws e
  | Completes _, Throws e => Throws e
  | Throws ea, Throws eb => Throws (if animalRejectsFirst then ea else eb)
  end.

(** [req.body], with a field [None] when it is missing or falsy. *)
Record Body : Type := {
  animalData : option JsObject;
  brainData : option JsObject
}.

Record Request : Type := {
  method : string;
  body : option Body
}.

Inductive ResponseJson : Type :=
| JsonError (error : string) (details : option string)
| JsonImages (animalImage brainImage : string).

Record Response : Type := {
  status : Z;
  json : ResponseJson
}.

(** [const { animalData, brainData } = req.body] *)
Definition destructureBody (b : option Body) : Completion Body :=
  match b with
  | Some b => Completes b
  | None => Throws (ErrorObject bodyMessage)
  end.

Definition handler (animalRejectsFirst : bool) (req : Request) : Response :=
  (* We only accept POST requests *)
  if negb (method req =? "POST")%string
  then {| status := 405; json := JsonError "Method Not Allowed" None |}
  else
    match
      (b <- destructureBody (body req) ;;
       (* Basic validation *)
       match animalData b, brainData b with
       | Some animalData, Some brainData =>
           images <- promiseAll animalRejectsFirst
                       (generateAnimalImage BASE_IMAGE_ANIMALS_URL animalData)
                       (generateBrainImage BASE_IMAGE_BRAIN_URL brainData) ;;
           Completes {| status := 200;
                        json := JsonImages (fst images) (snd images) |}
       | _, _ =>
           Completes
             {| status := 400;
                json := JsonError
                  ("Request body must contain " ++ dquote ++ "animalData"
                   ++ dquote ++ " and " ++ dquote ++ "brainData" ++ dquote
                   ++ " objects.") None |}
       end)
    with
    | Completes response => response
    | Throws error =>
        let errorMessage :=
          match error with
          | ErrorObject message => message
          | OtherValue _ => "An unknown error occurred."
          end in
        {| status := 500;
           json := JsonError "Failed to generate images." (Some errorMessage) |}
    end.

(* ------------------------------------------------------------------ *)
(** ** The two dataset shapes *)

Inductive Shape : Type := AnimalSet | BrainSet.

(** The names of the interfaces [AnimalData] and [BrainData], as declared. *)
Definition shapeNames (s : Shape) : list string :=
  match s with
  | AnimalSet => ["lobo"; "aguia"; "tubarao"; "gato"]
  | BrainSet => ["pensante"; "atuante"; "razao"; "emocao"]
  end.

Definition shapePositions (s : Shape) : list (string * Point) :=
  match s with
  | AnimalSet => animalPositions
  | BrainSet => brainPositions
  end.

(** The word by which the error message of a render names it. *)
Definition shapeWord (s : Shape) : string :=
  match s with
  | AnimalSet => "animal"
  | BrainSet => "brain"
  end.

Definition renderCanvas (s : Shape) : string -> JsObject -> Completion Canvas :=
  match s with
  | AnimalSet => animalCanvas
  | BrainSet => brainCanvas
  end.

Definition generateImage (s : Shape) : string -> JsObject -> Completion string :=
  match s with
  | AnimalSet => generateAnimalImage
  | BrainSet => generateBrainImage
  end.

End Engine.

(* ------------------------------------------------------------------ *)
(** ** Reading a canvas *)

Definition isFillText (op : DrawOp) : bool :=
  match op with
  | OpFillText _ _ _ _ => true
  | OpDrawImage _ _ _ => false
  end.

(** The labels drawn on a canvas, in drawing order. *)
Definition labels (c : Canvas) : list DrawOp :=
  filter isFillText (ops (context c)).

Definition opState (op : DrawOp) : TextState :=
  match op with
  | OpFillText st _ _ _ => st
  | OpDrawImage _ _ _ => defaultState
  end.

(** Emphasized style: font size 40, yellow. *)
Definition emphasized (op : DrawOp) : bool :=
  isFillText op
  && (font (opState op) =? "40px " ++ fontName)%string
  && (fillStyle (opState op) =? "#FFFF00")%string.

(** Normal style: font size 36, white. *)
Definition normalStyle (op : DrawOp) : bool :=
  isFillText op
  && (font (opState op) =? "36px " ++ fontName)%string
  && (fillStyle (opState op) =? "#FFFFFF")%string.

(** The drop shadow under which a label is drawn. *)
Definition dropShadow (st : TextState) : bool :=
  (shadowColor st =? "rgba(0, 0, 0, 0.8)")%string
  && (shadowBlur st =? 10) && (shadowOffsetX st =? 0)
  && (shadowOffsetY st =? 0).

(** The attributes under which nothing casts a shadow. *)
Definition noShadow (st : TextState) : bool :=
  (shadowColor st =? "transparent")%string
  && (shadowBlur st =? 0) && (shadowOffsetX st =? 0)
  && (shadowOffsetY st =? 0).

(** The attributes in force while the label of an entry is drawn. *)
Definition labelState (isHighest : bool) : TextState :=
  {| font := labelFont isHighest;
     fillStyle := labelColor isHighest;
     textAlign := "center";
     textBaseline := "middle";
     shadowColor := "rgba(0, 0, 0, 0.8)";
     shadowBlur := 10;
     shadowOffsetX := 0;
     shadowOffsetY := 0 |}.

(** The operations the drawing loop adds for a list of entries: one text
    per entry whose name has a position, none for a name that resolves to a
    member of [Object.prototype]. *)
Definition labelOps (largeNumberText : Z -> string)
  (positions : list (string * Point))
  (highestName : option string) (entries : list (string * Z)) : list DrawOp :=
  flat_map
    (fun entry =>
       match getProp positions (fst entry) with
       | PPoint p =>
           [OpFillText (labelState (strictEq (fst entry) highestName))
              (numberToString largeNumberText (snd entry) ++ "%")
              (px p) (py p)]
       | _ => []
       end)
    entries.

(** The images carried by a response, if any. *)
Definition responseImages (r : Response) : option (string * string) :=
  match json r with
  | JsonImages a b => Some (a, b)
  | JsonError _ _ => None
  end.

(* ------------------------------------------------------------------ *)
(** ** A concrete environment, for examples *)

Definition sampleLoad (url : string) : Completion Image :=
  Completes {| imgWidth := 1000; imgHeight := 1200; imgSource := url |}.

(** An environment in which the brain base image cannot be decoded. *)
Definition brainUndecodable (url : string) : Completion Image :=
  if (url =? BASE_IMAGE_BRAIN_URL)%string
  then Throws (ErrorObject "Unsupported image type")
  else sampleLoad url.

Definition opText (op : DrawOp) : string :=
  match op with
  | OpFillText _ text _ _ => text
  | OpDrawImage img _ _ => imgSource img
  end.

(** An encoder that lists what was drawn. *)
Definition sampleDataURL (c : Canvas) (mime : string) : string :=
  "data:" ++ mime ++ ";" ++ String.concat "," (map opText (ops (context c))).

Definition sampleTypeError : string := "Cannot destructure property 'x'".

(** The examples hold safe integers only, so this text is never printed. *)
Definition sampleLargeText (v : Z) : string := "1e+21".
Definition sampleBodyError : string := "Cannot destructure property 'animalData'".

Definition scenarioA : JsObject :=
  [("lobo", 40); ("aguia", 55); ("tubarao", 55); ("gato", 10)].

Definition scenarioB : JsObject :=
  [("pensante", 20); ("atuante", 30); ("razao", 25); ("emocao", 25)].

Definition allBelowSentinel : JsObject :=
  [("lobo", -5); ("aguia", -5); ("tubarao", -5); ("gato", -5)].

Definition tiedBelowSentinel : JsObject :=
  [("lobo", -2); ("aguia", -2); ("tubarao", -7); ("gato", -9)].

Definition allMinusOne : JsObject :=
  [("lobo", -1); ("aguia", -1); ("tubarao", -1); ("gato", -1)].

Definition withoutGato : JsObject :=
  [("lobo", 40); ("aguia", 55); ("tubarao", 5)].

Definition withConstructor : JsObject :=
  [("lobo", 40); ("aguia", 55); ("tubarao", 5); ("gato", 10);
   ("constructor", 7)].

Definition withUnknown : JsObject :=
  [("lobo", 40); ("aguia", 55); ("cavalo", 5); ("gato", 10)].

Definition withInheritedMax : JsObject :=
  [("lobo", 40); ("aguia", 55); ("tubarao", 5); ("gato", 10);
   ("constructor", 99)].

(** A POST request whose body carries the two given fields. *)
Definition postRequest (animal brain : option JsObject) : Request :=
  {| method := "POST";
     body := Some {| animalData := animal; brainData := brain |} |}.

(** Whether the positions table of a shape has an own entry for a name. *)
Definition hasOwnPosition (s : Shape) (name : string) : bool :=
  match getOwn (shapePositions s) name with
  | Some _ => true
  | None => false
  end.

(** The three answers of the handler that carry no image. *)
Definition methodNotAllowed : Response :=
  {| status := 405; json := JsonError "Method Not Allowed" None |}.

Definition badRequest : Response :=
  {| status := 400;
     json := JsonError
               ("Request body must contain " ++ dquote ++ "animalData"
                ++ dquote ++ " and " ++ dquote ++ "brainData" ++ dquote
                ++ " objects.") None |}.

Definition serverError (details : string) : Response :=
  {| status := 500;
     json := JsonError "Failed to generate images." (Some details) |}.

(* ------------------------------------------------------------------ *)
(** * Properties *)

(** ** The loop that finds the highest percentage *)

Lemma updateHighest_keeps (acc : option string * Z) (name : string) (percentage : Z) :
  percentage <= snd acc -> updateHighest acc (name, percentage) = acc.
Proof.
  destruct acc as [h m]; cbn [snd updateHighest]; intros Hle.
  destruct (Z.gtb_spec percentage m) as [Hgt | _]; [lia | reflexivity].
Qed.

Lemma updateHighest_replaces (acc : option string * Z) (name : string) (percentage : Z) :
  snd acc < percentage ->
  updateHighest acc (name, percentage) = (Some name, percentage).
Proof.
  destruct acc as [h m]; cbn [snd updateHighest]; intros Hlt.
  destruct (Z.gtb_spec percentage m) as [_ | Hle]; [reflexivity | lia].
Qed.

(** Either nothing exceeded the starting maximum and the state is untouched,
    or the state is the first entry that carries the largest value. *)
Lemma fold_updateHighest_spec (es : list (string * Z)) :
  forall (h : option string) (m : Z),
    let r := fold_left updateHighest es (h, m) in
    (r = (h, m) /\ Forall (fun e => snd e <= m) es)
    \/ (exists pre k post,
           es = (pre ++ (k, snd r) :: post)%list
           /\ fst r = Some k
           /\ m < snd r
           /\ Forall (fun e => snd e < snd r) pre
           /\ Forall (fun e => snd e <= snd r) post).
Proof.
  induction es as [| [k v] rest IH]; intros h m; cbn zeta.
  - left; split; [reflexivity | constructor].
  - cbn [fold_left].
    destruct (Z_lt_le_dec m v) as [Hlt | Hle].
    + rewrite (updateHighest_replaces (h, m) k v Hlt).
      destruct (IH (Some k) v) as [[Hr Hall] | (pre & k' & post & He & Hk & Hm & Hpre & Hpost)].
      * right; exists [], k, rest.
        rewrite Hr; cbn [fst snd app]; repeat split; auto.
      * right; exists ((k, v) :: pre), k', post.
        rewrite He at 1; cbn [app]; repeat split; auto; try lia;
          try (constructor; [cbn [snd]; lia | assumption]).
    + rewrite (updateHighest_keeps (h, m) k v Hle).
      destruct (IH h m) as [[Hr Hall] | (pre & k' & post & He & Hk & Hm & Hpre & Hpost)].
      * left; split; [assumption | constructor; [exact Hle | assumption]].
      * right; exists ((k, v) :: pre), k', post.
        rewrite He at 1; cbn [app]; repeat split; auto;
          try (constructor; [cbn [snd]; lia | assumption]).
Qed.

(** The loop from its initial state: no name when every value is at most
    the sentinel, the first entry of largest value otherwise. *)
Lemma findHighest_none (es : list (string * Z)) :
  Forall (fun e => snd e <= -1) es -> findHighest es = (None, -1).
Proof.
  intros Hall; unfold findHighest.
  destruct (fold_updateHighest_spec es None (-1))
    as [[Hr _] | (pre & k & post & He & _ & Hm & _ & _)]; [exact Hr |].
  exfalso. rewrite He in Hall. apply Forall_app in Hall as [_ Hall].
  inversion Hall as [| ? ? Hk _]; cbn [snd] in Hk; lia.
Qed.

Lemma findHighest_first_max (es : list (string * Z)) :
  Exists (fun e => -1 < snd e) es ->
  exists pre k v post,
    es = (pre ++ (k, v) :: post)%list
    /\ findHighest es = (Some k, v)
    /\ -1 < v
    /\ Forall (fun e => snd e < v) pre
    /\ Forall (fun e => snd e <= v) post.
Proof.
  intros Hex; unfold findHighest.
  destruct (fold_updateHighest_spec es None (-1))
    as [[_ Hall] | (pre & k & post & He & Hk & Hm & Hpre & Hpost)].
  - exfalso. apply Exists_exists in Hex as (e & Hin & Hgt).
    rewrite Forall_forall in Hall. specialize (Hall e Hin). lia.
  - exists pre, k, (snd (fold_left updateHighest es (None, -1))), post.
    repeat split; auto.
    destruct (fold_left updateHighest es (None, -1)) as [h m].
    cbn [fst snd] in *; congruence.
Qed.

(** ** Looking names up *)

Lemma getOwn_In {V : Type} (o : list (string * V)) (k : string) (v : V) :
  NoDup (map fst o) -> In (k, v) o -> getOwn o k = Some v.
Proof.
  induction o as [| [k' v'] rest IH]; cbn [map fst getOwn In]; intros Hnd Hin.
  - contradiction.
  - inversion Hnd as [| ? ? Hnot Hnd']; subst.
    destruct Hin as [Heq | Hin].
    + inversion Heq; subst. now rewrite String.eqb_refl.
    + destruct (String.eqb_spec k k') as [-> | _].
      * exfalso; apply Hnot. change k' with (fst (k', v)). now apply in_map.
      * now apply IH.
Qed.

Lemma getOwn_None {V : Type} (o : list (string * V)) (k : string) :
  getOwn o k = None <-> ~ In k (map fst o).
Proof.
  induction o as [| [k' v'] rest IH]; cbn [map fst getOwn In].
  - tauto.
  - destruct (String.eqb_spec k k') as [-> | Hne].
    + split; [discriminate | intros H; exfalso; apply H; now left].
    + rewrite IH. split; [intros H [Heq | Hin]; [congruence | tauto] | tauto].
Qed.

(** Every declared name of a shape has a position. *)
Lemma shape_names_have_positions (s : Shape) (k : string) :
  In k (shapeNames s) -> exists p, getProp (shapePositions s) k = PPoint p.
Proof.
  destruct s; cbn [shapeNames In]; intros H;
    repeat (destruct H as [<- | H]; [eexists; reflexivity |]);
    contradiction.
Qed.

(** ** The drawing primitive *)

Lemma drawTextWithShadow_state (ctx : Context2D) (text : string)
  (x y : option Z) (f c a b : string) :
  state (drawTextWithShadow ctx text x y f c a b)
  = {| font := f; fillStyle := c; textAlign := a; textBaseline := b;
       shadowColor := "transparent"; shadowBlur := 0;
       shadowOffsetX := 0; shadowOffsetY := 0 |}.
Proof. destruct x, y; reflexivity. Qed.

Lemma drawTextWithShadow_ops (ctx : Context2D) (text : string)
  (x y : Z) (f c a b : string) :
  ops (drawTextWithShadow ctx text (Some x) (Some y) f c a b)
  = (ops ctx
     ++ [OpFillText
           {| font := f; fillStyle := c; textAlign := a; textBaseline := b;
              shadowColor := "rgba(0, 0, 0, 0.8)"; shadowBlur := 10;
              shadowOffsetX := 0; shadowOffsetY := 0 |} text x y])%list.
Proof. reflexivity. Qed.

Lemma drawTextWithShadow_ops_undefined (ctx : Context2D) (text : string)
  (f c a b : string) :
  ops (drawTextWithShadow ctx text None None f c a b) = ops ctx.
Proof. reflexivity. Qed.

(** ** The drawing loop *)

Section DrawLoop.

Variable positionMessage : string.
Variable largeNumberText : Z -> string.
Variable positions : list (string * Point).
Variable highestName : option string.

Lemma drawLabels_ops (es : list (string * Z)) :
  forall ctx ctx',
    drawLabels positionMessage largeNumberText
        positions highestName es ctx = Completes ctx' ->
    ops ctx' = (ops ctx ++ labelOps largeNumberText
        positions highestName es)%list.
Proof.
  induction es as [| [name percentage] rest IH]; intros ctx ctx' Hrun.
  - cbn in Hrun. inversion Hrun; subst. cbn. now rewrite app_nil_r.
  - cbn [drawLabels] in Hrun. unfold labelOps. cbn [flat_map fst snd].
    fold (labelOps largeNumberText positions highestName rest).
    destruct (getProp positions name) as [p | inh |];
      cbn [destructureXY bind fst snd] in Hrun.
    + apply IH in Hrun. rewrite Hrun, drawTextWithShadow_ops.
      now rewrite <- app_assoc.
    + apply IH in Hrun. now rewrite Hrun, drawTextWithShadow_ops_undefined.
    + discriminate.
Qed.

Lemma drawLabels_completes (es : list (string * Z)) :
  (forall k, In k (map fst es) -> getProp positions k <> PUndefined) ->
  forall ctx,
  exists ctx',
    drawLabels positionMessage largeNumberText
        positions highestName es ctx = Completes ctx'.
Proof.
  induction es as [| [name percentage] rest IH]; intros Hkeys ctx.
  - eexists; reflexivity.
  - cbn [drawLabels].
    assert (Hname : getProp positions name <> PUndefined)
      by (apply Hkeys; now left).
    destruct (getProp positions name) as [p | inh |];
      cbn [destructureXY bind fst snd]; try congruence;
      (apply IH; intros k Hk; apply Hkeys; now right).
Qed.

Lemma drawLabels_throws (es : list (string * Z)) :
  (exists k, In k (map fst es) /\ getProp positions k = PUndefined) ->
  forall ctx,
    drawLabels positionMessage largeNumberText positions highestName es ctx
    = Throws (ErrorObject positionMessage).
Proof.
  induction es as [| [name percentage] rest IH]; intros (k & Hin & Hk) ctx.
  - contradiction.
  - cbn [drawLabels].
    destruct (getProp positions name) as [p | inh |] eqn:Hname;
      cbn [destructureXY bind fst snd]; try reflexivity;
      (apply IH; exists k; split; [| exact Hk];
       destruct Hin as [<- | Hin]; [cbn [fst] in Hk; congruence | exact Hin]).
Qed.

End DrawLoop.

(** ** The two renders, uniformly *)

Section Renders.

Variable loadImage : string -> Completion Image.
Variable toDataURL : Canvas -> string -> string.
Variable positionMessage : string.
Variable largeNumberText : Z -> string.

Lemma renderCanvas_unfold (s : Shape) (url : string) (data : JsObject) :
  renderCanvas loadImage positionMessage largeNumberText s url data
  = (img <- loadImage url ;;
     ctx <- drawLabels positionMessage largeNumberText (shapePositions s)
              (fst (findHighest (entries data))) (entries data)
              (drawImage img 0 0
                 (getContext (createCanvas (imgWidth img) (imgHeight img)))) ;;
     Completes
       (withContext (createCanvas (imgWidth img) (imgHeight img)) ctx)).
Proof. destruct s; reflexivity. Qed.

Lemma generateImage_unfold (s : Shape) (url : string) (data : JsObject) :
  generateImage loadImage toDataURL positionMessage largeNumberText s url data
  = match renderCanvas loadImage positionMessage largeNumberText s url data with
    | Completes canvas => Completes (toDataURL canvas "image/png")
    | Throws err =>
        Throws (ErrorObject
                  ("Error during " ++ shapeWord s ++ " image processing: "
                   ++ errorMessage err))
    end.
Proof.
  destruct s; cbn [generateImage renderCanvas shapeWord];
    [unfold generateAnimalImage; destruct (animalCanvas _ _ _ _)
    | unfold generateBrainImage; destruct (brainCanvas _ _ _ _)];
    reflexivity.
Qed.

(** What a completed render leaves on the canvas. *)
Lemma renderCanvas_completes_inv (s : Shape) (url : string) (data : JsObject)
  (c : Canvas) :
  renderCanvas loadImage positionMessage largeNumberText
      s url data = Completes c ->
  exists img,
    loadImage url = Completes img
    /\ width c = imgWidth img
    /\ height c = imgHeight img
    /\ ops (context c)
       = OpDrawImage img 0 0
         :: labelOps largeNumberText
             (shapePositions s) (fst (findHighest (entries data)))
              (entries data).
Proof.
  rewrite renderCanvas_unfold. intros Hrun.
  destruct (loadImage url) as [img | e]; cbn [bind] in Hrun; [| discriminate].
  exists img. split; [reflexivity |].
  destruct (drawLabels _ _ _ _ _) as [ctx' | e] eqn:Hdraw;
    cbn [bind] in Hrun; [| discriminate].
  inversion Hrun; subst c. cbn [withContext width height context createCanvas].
  repeat split. now rewrite (drawLabels_ops _ _ _ _ _ _ _ Hdraw).
Qed.

Lemma renderCanvas_completes (s : Shape) (url : string) (data : JsObject)
  (img : Image) :
  loadImage url = Completes img ->
  (forall k, In k (keys data) -> getProp (shapePositions s) k <> PUndefined) ->
  exists c, renderCanvas loadImage positionMessage largeNumberText
      s url data = Completes c.
Proof.
  intros Hload Hkeys. rewrite renderCanvas_unfold, Hload. cbn [bind].
  destruct (drawLabels_completes positionMessage largeNumberText
      (shapePositions s)
              (fst (findHighest (entries data))) (entries data) Hkeys
              (drawImage img 0 0
                 (getContext (createCanvas (imgWidth img) (imgHeight img)))))
    as [ctx' Hdraw].
  rewrite Hdraw. cbn [bind]. eexists; reflexivity.
Qed.

End Renders.

(** ** Labels and their styles *)

Lemma labelOps_all_text (largeNumberText : Z -> string)
  (positions : list (string * Point))
  (h : option string) (es : list (string * Z)) :
  filter isFillText (labelOps largeNumberText
      positions h es) = labelOps largeNumberText positions h es.
Proof.
  induction es as [| [k v] rest IH]; [reflexivity |].
  unfold labelOps in *; cbn [flat_map fst snd].
  destruct (getProp positions k); cbn [app filter isFillText];
    now rewrite ?IH.
Qed.

Lemma labels_of_render (c : Canvas) (img : Image) (l : list DrawOp) :
  ops (context c) = OpDrawImage img 0 0 :: l ->
  filter isFillText l = l ->
  labels c = l.
Proof.
  intros Hops Hl. unfold labels. rewrite Hops. cbn [filter isFillText].
  exact Hl.
Qed.

Lemma emphasized_labelState (b : bool) (text : string) (x y : Z) :
  emphasized (OpFillText (labelState b) text x y) = b.
Proof. destruct b; reflexivity. Qed.

Lemma normalStyle_labelState (b : bool) (text : string) (x y : Z) :
  normalStyle (OpFillText (labelState b) text x y) = negb b.
Proof. destruct b; reflexivity. Qed.

Lemma dropShadow_labelState (b : bool) : dropShadow (labelState b) = true.
Proof. destruct b; reflexivity. Qed.

Section LabelCounts.

Variable largeNumberText : Z -> string.
Variable positions : list (string * Point).
Variable h : option string.

Lemma labelOps_no_highest (es : list (string * Z)) :
  (forall e, In e es -> strictEq (fst e) h = false) ->
  Forall (fun op => normalStyle op = true) (labelOps largeNumberText
      positions h es)
  /\ filter emphasized (labelOps largeNumberText positions h es) = [].
Proof.
  induction es as [| [k v] rest IH]; intros Hnone.
  - split; [constructor | reflexivity].
  - destruct IH as [IHn IHe]; [intros e He; apply Hnone; now right |].
    unfold labelOps in *; cbn [flat_map fst snd].
    assert (Hk : strictEq k h = false) by (apply (Hnone (k, v)); now left).
    destruct (getProp positions k); cbn [app]; try (split; assumption).
    rewrite Hk. split.
    + constructor; [reflexivity | assumption].
    + cbn [filter]. rewrite emphasized_labelState. assumption.
Qed.

Lemma labelOps_shadow (es : list (string * Z)) :
  Forall (fun op => dropShadow (opState op) = true) (labelOps largeNumberText
      positions h es).
Proof.
  induction es as [| [k v] rest IH]; [constructor |].
  unfold labelOps in *; cbn [flat_map fst snd].
  destruct (getProp positions k); cbn [app]; try assumption.
  constructor; [apply dropShadow_labelState | assumption].
Qed.

Lemma labelOps_counts (es : list (string * Z)) :
  (forall k, In k (map fst es) -> exists p, getProp positions k = PPoint p) ->
  List.length (labelOps largeNumberText positions h es) = List.length es
  /\ List.length (filter emphasized (labelOps largeNumberText positions h es))
     = List.length (filter (fun e => strictEq (fst e) h) es)
  /\ List.length (filter normalStyle (labelOps largeNumberText positions h es))
     = List.length (filter (fun e => negb (strictEq (fst e) h)) es).
Proof.
  induction es as [| [k v] rest IH]; intros Hknown.
  - repeat split.
  - destruct IH as (IHl & IHe & IHn);
      [intros k' Hk'; apply Hknown; now right |].
    destruct (Hknown k) as [p Hp]; [now left |].
    unfold labelOps in *; cbn [flat_map fst snd]. rewrite Hp.
    cbn [app List.length filter fst].
    rewrite emphasized_labelState, normalStyle_labelState.
    destruct (strictEq k h); cbn [negb List.length]; repeat split; congruence.
Qed.

End LabelCounts.

Lemma count_key_absent (es : list (string * Z)) (k : string) :
  ~ In k (map fst es) ->
  filter (fun e => strictEq (fst e) (Some k)) es = [].
Proof.
  induction es as [| [k' v] rest IH]; cbn [map fst In filter strictEq];
    intros Hnot; [reflexivity |].
  destruct (String.eqb_spec k' k) as [-> | _]; [tauto | apply IH; tauto].
Qed.

Lemma count_key_NoDup (es : list (string * Z)) (k : string) :
  NoDup (map fst es) -> In k (map fst es) ->
  List.length (filter (fun e => strictEq (fst e) (Some k)) es) = 1%nat.
Proof.
  induction es as [| [k' v] rest IH]; cbn [map fst In filter];
    intros Hnd Hin; [contradiction |].
  inversion Hnd as [| ? ? Hnot Hnd']; subst.
  change (strictEq k' (Some k)) with (String.eqb k' k).
  destruct (String.eqb_spec k' k) as [-> | Hne].
  - cbn [List.length]. now rewrite (count_key_absent rest k Hnot).
  - apply IH; [assumption | destruct Hin; [congruence | assumption]].
Qed.

Lemma filter_negb_length {A : Type} (f : A -> bool) (l : list A) :
  (List.length (filter f l) + List.length (filter (fun x => negb (f x)) l))%nat
  = List.length l.
Proof.
  induction l as [| a l IH]; [reflexivity |].
  cbn [filter]. destruct (f a); cbn [negb List.length]; lia.
Qed.

(** ** The starting maximum *)

Lemma fold_updateHighest_stable (es : list (string * Z)) (h : option string)
  (m : Z) :
  Forall (fun e => snd e <= m) es -> fold_left updateHighest es (h, m) = (h, m).
Proof.
  induction es as [| [k v] rest IH]; intros Hall; [reflexivity |].
  inversion Hall as [| ? ? Hle Hrest]; subst. cbn [fold_left].
  rewrite (updateHighest_keeps (h, m) k v Hle). now apply IH.
Qed.

Lemma fold_updateHighest_below (es : list (string * Z)) (v : Z) :
  Forall (fun e => snd e < v) es ->
  forall acc, snd acc < v -> snd (fold_left updateHighest es acc) < v.
Proof.
  induction es as [| [k p] rest IH]; intros Hall acc Hacc; [exact Hacc |].
  inversion Hall as [| ? ? Hlt Hrest]; subst. cbn [fold_left].
  apply IH; [assumption |].
  destruct (Z_lt_le_dec (snd acc) p) as [Hgt | Hle].
  - now rewrite (updateHighest_replaces acc k p Hgt).
  - now rewrite (updateHighest_keeps acc k p Hle).
Qed.

(** ** Renders of datasets whose names are all known *)

Lemma render_known_names
  (loadImage : string -> Completion Image) (positionMessage : string)
      (largeNumberText : Z -> string)
  (s : Shape) (url : string) (data : JsObject) (img : Image) :
  loadImage url = Completes img ->
  (forall k, In k (keys data) -> In k (shapeNames s)) ->
  exists c,
    renderCanvas loadImage positionMessage largeNumberText
        s url data = Completes c
    /\ labels c
       = labelOps largeNumberText
           (shapePositions s) (fst (findHighest (entries data)))
           (entries data)
    /\ List.length (labels c) = List.length data.
Proof.
  intros Hload Hsub.
  assert (Hknown : forall k, In k (map fst data) ->
                             exists p, getProp (shapePositions s) k = PPoint p).
  { intros k Hk. apply shape_names_have_positions. now apply Hsub. }
  destruct (renderCanvas_completes loadImage positionMessage largeNumberText
      s url data img Hload)
    as [c Hrun].
  { intros k Hk. destruct (Hknown k Hk) as [p Hp]. congruence. }
  exists c. split; [exact Hrun |].
  destruct (renderCanvas_completes_inv _ _ _ _ _ _ _ Hrun)
    as (img' & _ & _ & _ & Hops).
  rewrite (labels_of_render c img' _ Hops (labelOps_all_text _ _ _ _)).
  split; [reflexivity |].
  now destruct (labelOps_counts largeNumberText (shapePositions s)
                  (fst (findHighest (entries data))) data Hknown)
    as (Hl & _ & _).
Qed.

(** A label on the canvas comes from an entry of the dataset, and stands at
    the position the table gives for the name of that entry. *)
Lemma labelOps_In (largeNumberText : Z -> string)
  (positions : list (string * Point)) (h : option string)
  (es : list (string * Z)) (op : DrawOp) :
  In op (labelOps largeNumberText positions h es) ->
  exists k v p,
    In (k, v) es
    /\ getOwn positions k = Some p
    /\ op = OpFillText (labelState (strictEq k h)) (numberToString largeNumberText v ++ "%")
              (px p) (py p).
Proof.
  unfold labelOps. rewrite in_flat_map. intros ([k v] & Hin & Hop).
  cbn [fst snd] in Hop. unfold getProp in Hop.
  destruct (getOwn positions k) as [p |] eqn:Hown.
  - destruct Hop as [<- | []]. now exists k, v, p.
  - destruct (existsb _ _); contradiction.
Qed.

Lemma getOwn_Some_In {V : Type} (o : list (string * V)) (k : string) (v : V) :
  getOwn o k = Some v -> In (k, v) o.
Proof.
  induction o as [| [k' v'] rest IH]; cbn [getOwn In]; [discriminate |].
  destruct (String.eqb_spec k k') as [-> | _].
  - intros Heq; inversion Heq; now left.
  - intros Hrest; right; now apply IH.
Qed.

(** No two names of a shape share a position. *)
Lemma shapePositions_injective (s : Shape) (k1 k2 : string) (p1 p2 : Point) :
  getOwn (shapePositions s) k1 = Some p1 ->
  getOwn (shapePositions s) k2 = Some p2 ->
  px p1 = px p2 -> py p1 = py p2 -> k1 = k2.
Proof.
  intros H1 H2. apply getOwn_Some_In in H1, H2.
  destruct s; cbn [shapePositions animalPositions brainPositions In] in H1, H2;
    repeat match goal with
           | H : _ \/ _ |- _ => destruct H
           | H : False |- _ => destruct H
           | H : (_, _) = (_, _) |- _ => inversion H; clear H; subst
           end;
    cbn [px py mkPoint]; intros; congruence || discriminate.
Qed.

(** ** The names the positions tables resolve *)

Lemma existsb_eqb_absent (k : string) (l : list string) :
  ~ In k l -> existsb (String.eqb k) l = false.
Proof.
  induction l as [| k' l IH]; cbn [existsb In]; intros Hnot; [reflexivity |].
  destruct (String.eqb_spec k k') as [-> | _]; [tauto | apply IH; tauto].
Qed.

(** The names for which the positions table of a shape yields [undefined]. *)
Lemma getProp_undefined (s : Shape) (k : string) :
  ~ In k (shapeNames s) -> ~ In k objectPrototypeKeys ->
  getProp (shapePositions s) k = PUndefined.
Proof.
  intros Hname Hproto. unfold getProp.
  assert (Hown : getOwn (shapePositions s) k = None).
  { apply getOwn_None. intros Hin. apply Hname.
    destruct s; cbn [shapePositions animalPositions brainPositions map fst In]
      in Hin; cbn [shapeNames In]; tauto. }
  now rewrite Hown, (existsb_eqb_absent k objectPrototypeKeys Hproto).
Qed.

(** The names for which the lookup in the positions table yields a value. *)
Lemma getProp_defined_iff (s : Shape) (k : string) :
  getProp (shapePositions s) k <> PUndefined
  <-> In k (shapeNames s) \/ In k objectPrototypeKeys.
Proof.
  split.
  - intros Hdef.
    destruct (in_dec string_dec k (shapeNames s)) as [Hn | Hn]; [now left |].
    destruct (in_dec string_dec k objectPrototypeKeys) as [Hp | Hp];
      [now right |].
    exfalso. apply Hdef. now apply getProp_undefined.
  - intros [Hn | Hp].
    + destruct (shape_names_have_positions s k Hn) as [p Hp]. congruence.
    + unfold getProp. destruct (getOwn (shapePositions s) k); [discriminate |].
      assert (Hex : existsb (String.eqb k) objectPrototypeKeys = true).
      { apply existsb_exists. exists k. split; [exact Hp |].
        apply String.eqb_refl. }
      rewrite Hex. discriminate.
Qed.

(* ------------------------------------------------------------------ *)
(** * The claims *)

(** ** C1 *)

(** C1, as stated, fails: a dataset of four entries whose values are all
    below the starting maximum -1 makes the loop end with no name at all. *)
Lemma selected_name_absent_below_sentinel :
  allBelowSentinel <> []
  /\ fst (findHighest (entries allBelowSentinel)) = None
  /\ ~ (exists name,
           fst (findHighest (entries allBelowSentinel)) = Some name
           /\ In name (keys allBelowSentinel)).
Proof.
  split; [discriminate |]. split; [reflexivity |].
  intros (name & Hsel & _). vm_compute in Hsel. discriminate.
Qed.

(** C1 (amended): for every dataset in which at least one value is greater
    than -1, the label-selection loop returns a name present in the set, and
    the value the dataset maps that name to is greater than or equal to the
    value of every entry. *)
Theorem selected_name_is_maximal (data : JsObject) :
  wfObject data ->
  Exists (fun e => -1 < snd e) data ->
  exists name v,
    fst (findHighest (entries data)) = Some name
    /\ In name (keys data)
    /\ getOwn data name = Some v
    /\ Forall (fun e => snd e <= v) data.
Proof.
  intros Hwf Hex. unfold entries.
  destruct (findHighest_first_max data Hex)
    as (pre & k & v & post & He & Hsel & _ & Hpre & Hpost).
  assert (Hin : In (k, v) data)
    by (rewrite He; apply in_or_app; right; now left).
  exists k, v. rewrite Hsel. repeat split.
  - unfold keys. change k with (fst (k, v)). now apply in_map.
  - now apply getOwn_In.
  - rewrite He. apply Forall_app. split.
    + eapply Forall_impl; [| exact Hpre]. cbn beta; intros; lia.
    + constructor; [cbn [snd]; lia | exact Hpost].
Qed.

(** The amended C1 at scenario A. *)
Lemma selected_name_is_maximal_scenarioA :
  exists name v,
    fst (findHighest (entries scenarioA)) = Some name
    /\ In name (keys scenarioA)
    /\ getOwn scenarioA name = Some v
    /\ Forall (fun e => snd e <= v) scenarioA.
Proof.
  apply (selected_name_is_maximal scenarioA).
  - unfold wfObject, keys, scenarioA; cbn [map fst].
    repeat constructor; cbn [In]; intuition discriminate.
  - apply Exists_cons_hd; cbn [snd]; lia.
Defined.

(** ** C3 *)

(** C3, as stated, fails: two entries tied at a maximum that does not exceed
    the starting maximum -1 leave the selection empty, so the first of them
    is not selected. *)
Lemma tied_below_sentinel_selects_nothing :
  getOwn tiedBelowSentinel "lobo" = Some (-2)
  /\ getOwn tiedBelowSentinel "aguia" = Some (-2)
  /\ Forall (fun e => snd e <= -2) tiedBelowSentinel
  /\ fst (findHighest (entries tiedBelowSentinel)) <> Some "lobo".
Proof.
  repeat split; try reflexivity.
  - repeat constructor; cbn [snd]; lia.
  - vm_compute. discriminate.
Qed.

(** C3 (amended): the loop replaces the running maximum only on strictly
    greater values, so whenever the maximum value of the dataset is greater
    than -1, the first entry in iteration order that carries it is the one
    selected, whatever entries tie with it later on; in particular, for
    {lobo: 40, aguia: 55, tubarao: 55, gato: 10} the selected name is
    aguia. *)
Theorem tie_break_first_wins :
  (forall acc name percentage,
      (percentage <= snd acc -> updateHighest acc (name, percentage) = acc)
      /\ (snd acc < percentage ->
          updateHighest acc (name, percentage) = (Some name, percentage)))
  /\ (forall pre k v post,
         -1 < v ->
         Forall (fun e => snd e < v) pre ->
         Forall (fun e => snd e <= v) post ->
         fst (findHighest (entries (pre ++ (k, v) :: post)%list)) = Some k)
  /\ fst (findHighest (entries scenarioA)) = Some "aguia".
Proof.
  split.
  { intros acc name percentage.
    split; [apply updateHighest_keeps | apply updateHighest_replaces]. }
  split; [| reflexivity].
  intros pre k v post Hv Hpre Hpost. unfold findHighest, entries.
  rewrite fold_left_app. cbn [fold_left].
  pose proof (fold_updateHighest_below pre v Hpre (None, -1) Hv) as Hbelow.
  rewrite (updateHighest_replaces _ k v Hbelow).
  now rewrite (fold_updateHighest_stable post (Some k) v Hpost).
Qed.

(** The tie-break rule at scenario A: lobo precedes, tubarao ties later. *)
Lemma tie_break_first_wins_scenarioA :
  fst (findHighest
         (entries ([("lobo", 40)] ++ ("aguia", 55)
                   :: [("tubarao", 55); ("gato", 10)])%list))
  = Some "aguia".
Proof.
  apply (proj1 (proj2 tie_break_first_wins)).
  - lia.
  - repeat constructor; cbn [snd]; lia.
  - repeat constructor; cbn [snd]; lia.
Defined.

(** ** C9 *)

(** C9: if every value of the dataset is at most -1, the loop selects no
    name, and no label of a completed render is drawn in the emphasized
    style: all of them have the normal font size and color; when the base
    image loads and the names are names of the shape, the render completes
    with one such label per entry. *)
Theorem below_sentinel_nothing_emphasized (data : JsObject) :
  Forall (fun e => snd e <= -1) data ->
  fst (findHighest (entries data)) = None
  /\ (forall loadImage positionMessage largeNumberText s url c,
         renderCanvas loadImage positionMessage largeNumberText
             s url data = Completes c ->
         Forall (fun op => normalStyle op = true) (labels c)
         /\ filter emphasized (labels c) = [])
  /\ (forall loadImage positionMessage largeNumberText s url img,
         loadImage url = Completes img ->
         (forall k, In k (keys data) -> In k (shapeNames s)) ->
         exists c,
           renderCanvas loadImage positionMessage largeNumberText
               s url data = Completes c
           /\ List.length (labels c) = List.length data).
Proof.
  intros Hall. unfold entries.
  rewrite (findHighest_none data Hall). split; [reflexivity |]. split.
  - intros loadImage positionMessage largeNumberText s url c Hrun.
    destruct (renderCanvas_completes_inv _ _ _ _ _ _ _ Hrun)
      as (img & _ & _ & _ & Hops).
    unfold entries in Hops. rewrite (findHighest_none data Hall) in Hops.
    cbn [fst] in Hops.
    rewrite (labels_of_render c img _ Hops (labelOps_all_text _ _ _ _)).
    apply labelOps_no_highest. reflexivity.
  - intros loadImage positionMessage largeNumberText s url img Hload Hsub.
    destruct (render_known_names loadImage positionMessage largeNumberText
        s url data img
                Hload Hsub) as (c & Hrun & _ & Hlen).
    now exists c.
Qed.

(** C9 at a dataset whose four values are -5. *)
Lemma below_sentinel_nothing_emphasized_example :
  fst (findHighest (entries allBelowSentinel)) = None
  /\ (forall loadImage positionMessage largeNumberText s url c,
         renderCanvas loadImage positionMessage largeNumberText
             s url allBelowSentinel
         = Completes c ->
         Forall (fun op => normalStyle op = true) (labels c)
         /\ filter emphasized (labels c) = [])
  /\ (forall loadImage positionMessage largeNumberText s url img,
         loadImage url = Completes img ->
         (forall k, In k (keys allBelowSentinel) -> In k (shapeNames s)) ->
         exists c,
           renderCanvas loadImage positionMessage largeNumberText
               s url allBelowSentinel
           = Completes c
           /\ List.length (labels c) = List.length allBelowSentinel).
Proof.
  apply (below_sentinel_nothing_emphasized allBelowSentinel).
  repeat constructor; cbn [snd]; lia.
Defined.

(** ** C5 *)

Lemma shapeNames_NoDup (s : Shape) : NoDup (shapeNames s).
Proof.
  destruct s; cbn [shapeNames]; repeat constructor; cbn [In];
    intuition discriminate.
Qed.

(** When all values are equal and one exceeds -1, the loop selects the
    first entry. *)
Lemma findHighest_all_equal (k0 : string) (v0 : Z) (rest : list (string * Z)) :
  -1 < v0 ->
  Forall (fun e => snd e = v0) rest ->
  findHighest ((k0, v0) :: rest) = (Some k0, v0).
Proof.
  intros Hv Hall. unfold findHighest. cbn [fold_left].
  rewrite (updateHighest_replaces (None, -1) k0 v0 Hv).
  apply fold_updateHighest_stable.
  eapply Forall_impl; [| exact Hall]. cbn beta; intros; lia.
Qed.

(** C5, as stated, fails: with the four names present and all values equal
    to -1 the render completes with four labels, none of them emphasized. *)
Lemma equal_values_at_sentinel_none_emphasized :
  keys allMinusOne = shapeNames AnimalSet
  /\ match
       animalCanvas sampleLoad sampleTypeError sampleLargeText
           BASE_IMAGE_ANIMALS_URL
         allMinusOne
     with
     | Completes c =>
         List.length (labels c) = 4%nat
         /\ filter emphasized (labels c) = []
         /\ List.length (filter normalStyle (labels c)) = 4%nat
     | Throws _ => False
     end.
Proof. vm_compute. repeat split. Qed.

(** C5 (amended): for every dataset whose names are exactly the four names
    of its shape and in which at least one value is greater than -1, the
    render draws four labels, exactly one of them in the emphasized style
    (font size 40, yellow) and the other three in the normal style (font
    size 36, white); when all four values are equal, the label of the first
    name in iteration order is the emphasized one. *)
Theorem exactly_one_label_emphasized
  (loadImage : string -> Completion Image) (toDataURL : Canvas -> string -> string)
  (positionMessage : string)
      (largeNumberText : Z -> string) (s : Shape) (url : string) (data : JsObject)
  (img : Image) :
  Permutation (keys data) (shapeNames s) ->
  Exists (fun e => -1 < snd e) data ->
  loadImage url = Completes img ->
  exists c,
    renderCanvas loadImage positionMessage largeNumberText
        s url data = Completes c
    /\ generateImage loadImage toDataURL positionMessage largeNumberText
        s url data
       = Completes (toDataURL c "image/png")
    /\ List.length (labels c) = 4%nat
    /\ List.length (filter emphasized (labels c)) = 1%nat
    /\ List.length (filter normalStyle (labels c)) = 3%nat
    /\ (forall k0 v0 rest p,
           data = (k0, v0) :: rest ->
           Forall (fun e => snd e = v0) data ->
           getOwn (shapePositions s) k0 = Some p ->
           hd_error (labels c)
           = Some (OpFillText (labelState true) (numberToString largeNumberText v0 ++ "%")
                     (px p) (py p))).
Proof.
  intros Hperm Hex Hload.
  assert (Hknown : forall k, In k (map fst data) ->
                             exists p, getProp (shapePositions s) k = PPoint p).
  { intros k Hk. apply shape_names_have_positions.
    eapply Permutation_in; [exact Hperm | exact Hk]. }
  assert (Hnd : NoDup (map fst data)).
  { eapply Permutation_NoDup;
      [apply Permutation_sym; exact Hperm | apply shapeNames_NoDup]. }
  assert (Hlen : List.length data = 4%nat).
  { rewrite <- (length_map fst data).
    change (map fst data) with (keys data).
    rewrite (Permutation_length Hperm). now destruct s. }
  destruct (renderCanvas_completes loadImage positionMessage largeNumberText
      s url data img Hload)
    as [c Hrun].
  { intros k Hk. destruct (Hknown k Hk) as [p Hp]. congruence. }
  exists c. split; [exact Hrun |].
  split; [now rewrite generateImage_unfold, Hrun |].
  destruct (renderCanvas_completes_inv _ _ _ _ _ _ _ Hrun)
    as (img' & _ & _ & _ & Hops).
  rewrite (labels_of_render c img' _ Hops (labelOps_all_text _ _ _ _)).
  unfold entries in *.
  destruct (labelOps_counts largeNumberText
      (shapePositions s) (fst (findHighest data)) data Hknown)
    as (Hl & He & Hn).
  destruct (findHighest_first_max data Hex)
    as (pre & k & v & post & Hdata & Hsel & Hv & _ & _).
  assert (Hin : In k (map fst data)).
  { rewrite Hdata, map_app. apply in_or_app; right; now left. }
  assert (Hone : List.length
                   (filter (fun e => strictEq (fst e) (fst (findHighest data)))
                      data) = 1%nat).
  { rewrite Hsel. cbn [fst]. now apply count_key_NoDup. }
  repeat split.
  - congruence.
  - congruence.
  - pose proof (filter_negb_length
                  (fun e => strictEq (fst e) (fst (findHighest data))) data).
    lia.
  - intros k0 v0 rest p Hshape Hall Hp.
    assert (Hv0 : -1 < v0).
    { apply Exists_exists in Hex as (e & He' & Hgt).
      rewrite Forall_forall in Hall. rewrite <- (Hall e He'). exact Hgt. }
    rewrite Hshape in Hall. pose proof (Forall_inv_tail Hall) as Hrest.
    rewrite Hshape.
    rewrite (findHighest_all_equal k0 v0 rest Hv0 Hrest).
    unfold labelOps, getProp. cbn [flat_map fst snd]. rewrite Hp.
    cbn [app hd_error strictEq]. now rewrite String.eqb_refl.
Qed.

(** The amended C5 at scenario B. *)
Lemma exactly_one_label_emphasized_scenarioB :
  exists c,
    renderCanvas sampleLoad sampleTypeError sampleLargeText
        BrainSet BASE_IMAGE_BRAIN_URL
      scenarioB = Completes c
    /\ generateImage sampleLoad sampleDataURL sampleTypeError sampleLargeText
        BrainSet
         BASE_IMAGE_BRAIN_URL scenarioB
       = Completes (sampleDataURL c "image/png")
    /\ List.length (labels c) = 4%nat
    /\ List.length (filter emphasized (labels c)) = 1%nat
    /\ List.length (filter normalStyle (labels c)) = 3%nat
    /\ (forall k0 v0 rest p,
           scenarioB = (k0, v0) :: rest ->
           Forall (fun e => snd e = v0) scenarioB ->
           getOwn (shapePositions BrainSet) k0 = Some p ->
           hd_error (labels c)
           = Some (OpFillText (labelState true) (numberToString sampleLargeText v0 ++ "%")
                     (px p) (py p))).
Proof.
  apply (exactly_one_label_emphasized sampleLoad sampleDataURL sampleTypeError sampleLargeText
           BrainSet BASE_IMAGE_BRAIN_URL scenarioB
           {| imgWidth := 1000; imgHeight := 1200;
              imgSource := BASE_IMAGE_BRAIN_URL |}).
  - apply Permutation_refl.
  - apply Exists_cons_hd; cbn [snd]; lia.
  - reflexivity.
Defined.

(** ** C2 *)

(** C2, as stated, fails: an animal dataset without the key gato is
    rendered; the result is an image with the three labels of the names
    present, and no error. *)
Lemma dataset_without_gato_is_rendered :
  getOwn withoutGato "gato" = None
  /\ generateAnimalImage sampleLoad sampleDataURL sampleTypeError sampleLargeText
       BASE_IMAGE_ANIMALS_URL withoutGato
     = Completes
         ("data:image/png;" ++ BASE_IMAGE_ANIMALS_URL ++ ",40%,55%,5%").
Proof. split; reflexivity. Qed.

(** C2 (amended): a dataset that misses a required name, gato or any other,
    is not rejected: when the base image loads and every name present is one
    of the names of the shape, the render completes and returns the encoded
    canvas, on which one label has been drawn per entry present and none at
    the position of the missing name. *)
Theorem missing_name_is_not_rejected
  (loadImage : string -> Completion Image) (toDataURL : Canvas -> string -> string)
  (positionMessage : string)
      (largeNumberText : Z -> string) (s : Shape) (url : string) (data : JsObject)
  (img : Image) (required : string) :
  In required (shapeNames s) ->
  getOwn data required = None ->
  (forall k, In k (keys data) -> In k (shapeNames s)) ->
  loadImage url = Completes img ->
  exists c p,
    renderCanvas loadImage positionMessage largeNumberText
        s url data = Completes c
    /\ generateImage loadImage toDataURL positionMessage largeNumberText
        s url data
       = Completes (toDataURL c "image/png")
    /\ List.length (labels c) = List.length data
    /\ getOwn (shapePositions s) required = Some p
    /\ (forall st text, ~ In (OpFillText st text (px p) (py p)) (labels c)).
Proof.
  intros Hreq Hmiss Hsub Hload.
  destruct (render_known_names loadImage positionMessage largeNumberText
      s url data img
              Hload Hsub) as (c & Hrun & Hlabels & Hlen).
  destruct (shape_names_have_positions s required Hreq) as [p Hp].
  assert (Hown : getOwn (shapePositions s) required = Some p).
  { unfold getProp in Hp.
    destruct (getOwn (shapePositions s) required) as [p' |];
      [congruence | destruct (existsb _ _); discriminate]. }
  exists c, p. split; [exact Hrun |].
  split; [now rewrite generateImage_unfold, Hrun |].
  split; [exact Hlen |]. split; [exact Hown |].
  intros st text Hin. rewrite Hlabels in Hin.
  apply labelOps_In in Hin as (k & v & p' & Hentry & Hown' & Hop).
  inversion Hop as [[Hst Htext Hx Hy]].
  assert (k = required)
    by (eapply shapePositions_injective; eauto).
  subst k. apply getOwn_None in Hmiss. apply Hmiss.
  change required with (fst (required, v)). unfold entries in Hentry.
  now apply in_map.
Qed.

(** The amended C2 at scenario C, the dataset without gato. *)
Lemma missing_name_is_not_rejected_gato :
  exists c p,
    renderCanvas sampleLoad sampleTypeError sampleLargeText
        AnimalSet BASE_IMAGE_ANIMALS_URL
      withoutGato = Completes c
    /\ generateImage sampleLoad sampleDataURL sampleTypeError sampleLargeText
        AnimalSet
         BASE_IMAGE_ANIMALS_URL withoutGato
       = Completes (sampleDataURL c "image/png")
    /\ List.length (labels c) = List.length withoutGato
    /\ getOwn (shapePositions AnimalSet) "gato" = Some p
    /\ (forall st text, ~ In (OpFillText st text (px p) (py p)) (labels c)).
Proof.
  apply (missing_name_is_not_rejected sampleLoad sampleDataURL sampleTypeError sampleLargeText
           AnimalSet BASE_IMAGE_ANIMALS_URL withoutGato
           {| imgWidth := 1000; imgHeight := 1200;
              imgSource := BASE_IMAGE_ANIMALS_URL |} "gato").
  - cbn [shapeNames In]; tauto.
  - reflexivity.
  - cbn [withoutGato keys map fst shapeNames In]; tauto.
  - reflexivity.
Defined.

(** ** C4 *)

(** Every error a render raises is an [Error] object that names the render. *)
Lemma generateImage_throws_Error
  (loadImage : string -> Completion Image) (toDataURL : Canvas -> string -> string)
  (positionMessage : string)
      (largeNumberText : Z -> string) (s : Shape) (url : string) (data : JsObject)
  (err : Thrown) :
  generateImage loadImage toDataURL positionMessage largeNumberText
      s url data = Throws err ->
  exists cause,
    err = ErrorObject ("Error during " ++ shapeWord s ++ " image processing: "
                       ++ cause).
Proof.
  rewrite generateImage_unfold.
  destruct (renderCanvas loadImage positionMessage largeNumberText
      s url data) as [c | e];
    [discriminate |].
  intros Heq; inversion Heq. now exists (errorMessage e).
Qed.

(** C4: on a POST request that carries both datasets the handler runs both
    renders, and if either of them fails it answers with status 500 and the
    failure body, whose details are the message of a failed render; no image
    is part of that response.  In particular, when exactly one render fails
    the details are the message of that render and the image the other one
    produced is dropped. *)
Theorem one_failed_render_fails_the_request
  (loadImage : string -> Completion Image) (toDataURL : Canvas -> string -> string)
  (positionMessage bodyMessage : string)
  (largeNumberText : Z -> string) (animalRejectsFirst : bool)
  (req : Request) (animal brain : JsObject) :
  let animalImage :=
    generateAnimalImage loadImage toDataURL positionMessage largeNumberText
      BASE_IMAGE_ANIMALS_URL animal in
  let brainImage :=
    generateBrainImage loadImage toDataURL positionMessage largeNumberText
      BASE_IMAGE_BRAIN_URL brain in
  let response :=
    handler loadImage toDataURL positionMessage bodyMessage largeNumberText
        animalRejectsFirst
      req in
  method req = "POST" ->
  body req = Some {| animalData := Some animal; brainData := Some brain |} ->
  (exists e, animalImage = Throws e) \/ (exists e, brainImage = Throws e) ->
  exists message,
    (animalImage = Throws (ErrorObject message)
     \/ brainImage = Throws (ErrorObject message))
    /\ response
       = {| status := 500;
            json := JsonError "Failed to generate images." (Some message) |}
    /\ responseImages response = None.
Proof.
  intros animalImage brainImage response Hmethod Hbody Hfail.
  assert (Hresp : response
                  = match promiseAll animalRejectsFirst animalImage brainImage with
                    | Completes images =>
                        {| status := 200;
                           json := JsonImages (fst images) (snd images) |}
                    | Throws error =>
                        {| status := 500;
                           json := JsonError "Failed to generate images."
                                     (Some match error with
                                           | ErrorObject message => message
                                           | OtherValue _ =>
                                               "An unknown error occurred."
                                           end) |}
                    end).
  { subst response. unfold handler.
    rewrite Hmethod, Hbody, String.eqb_refl.
    cbn [negb destructureBody bind animalData brainData].
    fold animalImage brainImage.
    now destruct (promiseAll animalRejectsFirst animalImage brainImage). }
  assert (Ha : forall e, animalImage = Throws e -> exists m, e = ErrorObject m).
  { intros e He.
    destruct (generateImage_throws_Error loadImage toDataURL positionMessage largeNumberText
                AnimalSet _ _ e He) as [cause ->]. eauto. }
  assert (Hb : forall e, brainImage = Throws e -> exists m, e = ErrorObject m).
  { intros e He.
    destruct (generateImage_throws_Error loadImage toDataURL positionMessage largeNumberText
                BrainSet _ _ e He) as [cause ->]. eauto. }
  rewrite Hresp. clear Hresp.
  destruct animalImage as [ia | ea] eqn:HA, brainImage as [ib | eb] eqn:HB.
  - destruct Hfail as [[e He] | [e He]]; discriminate.
  - destruct (Hb eb eq_refl) as [m ->]. exists m. cbn [promiseAll]. auto.
  - destruct (Ha ea eq_refl) as [m ->]. exists m. cbn [promiseAll]. auto.
  - destruct (Ha ea eq_refl) as [ma ->], (Hb eb eq_refl) as [mb ->].
    cbn [promiseAll]. destruct animalRejectsFirst; eexists; eauto.
Qed.

(** Scenario D: the brain base image cannot be decoded, the animal render
    succeeds. *)
Lemma one_failed_render_fails_the_request_brain :
  let response :=
    handler brainUndecodable sampleDataURL sampleTypeError sampleBodyError
        sampleLargeText true
      {| method := "POST";
         body := Some {| animalData := Some scenarioA;
                         brainData := Some scenarioB |} |} in
  generateAnimalImage brainUndecodable sampleDataURL sampleTypeError sampleLargeText
    BASE_IMAGE_ANIMALS_URL scenarioA
  = Completes
      ("data:image/png;" ++ BASE_IMAGE_ANIMALS_URL ++ ",40%,55%,55%,10%")
  /\ exists message,
       (generateAnimalImage brainUndecodable sampleDataURL sampleTypeError sampleLargeText
          BASE_IMAGE_ANIMALS_URL scenarioA = Throws (ErrorObject message)
        \/ generateBrainImage brainUndecodable sampleDataURL sampleTypeError sampleLargeText
             BASE_IMAGE_BRAIN_URL scenarioB = Throws (ErrorObject message))
       /\ response
          = {| status := 500;
               json := JsonError "Failed to generate images." (Some message) |}
       /\ responseImages response = None.
Proof.
  split; [reflexivity |].
  apply (one_failed_render_fails_the_request brainUndecodable sampleDataURL
           sampleTypeError sampleBodyError sampleLargeText true
           {| method := "POST";
              body := Some {| animalData := Some scenarioA;
                              brainData := Some scenarioB |} |}
           scenarioA scenarioB).
  - reflexivity.
  - reflexivity.
  - right. eexists. reflexivity.
Defined.

(** ** C7 *)

(** C7: whatever the base image, both renders work on a canvas that has
    exactly the width and the height of the base image and on which the
    first operation copies the base image at offset (0, 0).  Every output
    of a render is the encoding of such a canvas, on which everything drawn
    after the image is label text; and an output exists whenever the base
    image loads and the position of every key can be looked up. *)
Theorem surface_has_base_image_size
  (loadImage : string -> Completion Image) (toDataURL : Canvas -> string -> string)
  (positionMessage : string) (largeNumberText : Z -> string) (s : Shape)
  (url : string) (data : JsObject) (img : Image) :
  loadImage url = Completes img ->
  (forall out,
      generateImage loadImage toDataURL positionMessage largeNumberText s url
        data = Completes out ->
      exists c rest,
        renderCanvas loadImage positionMessage largeNumberText s url data
        = Completes c
        /\ out = toDataURL c "image/png"
        /\ width c = imgWidth img
        /\ height c = imgHeight img
        /\ ops (context c) = OpDrawImage img 0 0 :: rest
        /\ Forall (fun op => isFillText op = true) rest)
  /\ ((forall k, In k (keys data) ->
                 In k (shapeNames s) \/ In k objectPrototypeKeys) ->
      exists c rest,
        renderCanvas loadImage positionMessage largeNumberText s url data
        = Completes c
        /\ generateImage loadImage toDataURL positionMessage largeNumberText s
             url data = Completes (toDataURL c "image/png")
        /\ width c = imgWidth img
        /\ height c = imgHeight img
        /\ ops (context c) = OpDrawImage img 0 0 :: rest
        /\ Forall (fun op => isFillText op = true) rest).
Proof.
  intros Hload.
  assert (Hinv : forall c,
             renderCanvas loadImage positionMessage largeNumberText s url data
             = Completes c ->
             exists rest,
               width c = imgWidth img
               /\ height c = imgHeight img
               /\ ops (context c) = OpDrawImage img 0 0 :: rest
               /\ Forall (fun op => isFillText op = true) rest).
  { intros c Hrun.
    destruct (renderCanvas_completes_inv _ _ _ _ _ _ _ Hrun)
      as (img' & Hload' & Hw & Hh & Hops).
    assert (img' = img) by congruence; subst img'.
    exists (labelOps largeNumberText (shapePositions s)
              (fst (findHighest (entries data))) (entries data)).
    repeat split; auto.
    rewrite <- labelOps_all_text. apply Forall_forall.
    intros op Hop. now apply filter_In in Hop. }
  split.
  - intros out Hgen. rewrite generateImage_unfold in Hgen.
    destruct (renderCanvas loadImage positionMessage largeNumberText s url data)
      as [c | e] eqn:Hrun; [| discriminate].
    inversion Hgen; subst out.
    destruct (Hinv c eq_refl) as (rest & Hw & Hh & Hops & Hrest).
    exists c, rest. now repeat split.
  - intros Hkeys.
    destruct (renderCanvas_completes loadImage positionMessage largeNumberText
                s url data img Hload) as [c Hrun].
    { intros k Hk. apply getProp_defined_iff. now apply Hkeys. }
    destruct (Hinv c Hrun) as (rest & Hw & Hh & Hops & Hrest).
    exists c, rest. split; [exact Hrun |].
    split; [now rewrite generateImage_unfold, Hrun |]. now repeat split.
Qed.

(** C7 at both renders: scenario A on the animal base image and scenario B
    on the brain base image, each of 1000 by 1200 pixels. *)
Lemma surface_has_base_image_size_both_renders :
  (exists c rest,
      renderCanvas sampleLoad sampleTypeError sampleLargeText AnimalSet
        BASE_IMAGE_ANIMALS_URL scenarioA = Completes c
      /\ generateImage sampleLoad sampleDataURL sampleTypeError sampleLargeText
           AnimalSet BASE_IMAGE_ANIMALS_URL scenarioA
         = Completes (sampleDataURL c "image/png")
      /\ width c = 1000
      /\ height c = 1200
      /\ ops (context c)
         = OpDrawImage {| imgWidth := 1000; imgHeight := 1200;
                          imgSource := BASE_IMAGE_ANIMALS_URL |} 0 0 :: rest
      /\ Forall (fun op => isFillText op = true) rest)
  /\ (exists c rest,
         renderCanvas sampleLoad sampleTypeError sampleLargeText BrainSet
           BASE_IMAGE_BRAIN_URL scenarioB = Completes c
         /\ generateImage sampleLoad sampleDataURL sampleTypeError
              sampleLargeText BrainSet BASE_IMAGE_BRAIN_URL scenarioB
            = Completes (sampleDataURL c "image/png")
         /\ width c = 1000
         /\ height c = 1200
         /\ ops (context c)
            = OpDrawImage {| imgWidth := 1000; imgHeight := 1200;
                             imgSource := BASE_IMAGE_BRAIN_URL |} 0 0 :: rest
         /\ Forall (fun op => isFillText op = true) rest).
Proof.
  split.
  - apply (proj2 (surface_has_base_image_size sampleLoad sampleDataURL
                    sampleTypeError sampleLargeText AnimalSet
                    BASE_IMAGE_ANIMALS_URL scenarioA
                    {| imgWidth := 1000; imgHeight := 1200;
                       imgSource := BASE_IMAGE_ANIMALS_URL |} eq_refl)).
    cbn [scenarioA keys map fst shapeNames In]. tauto.
  - apply (proj2 (surface_has_base_image_size sampleLoad sampleDataURL
                    sampleTypeError sampleLargeText BrainSet
                    BASE_IMAGE_BRAIN_URL scenarioB
                    {| imgWidth := 1000; imgHeight := 1200;
                       imgSource := BASE_IMAGE_BRAIN_URL |} eq_refl)).
    cbn [scenarioB keys map fst shapeNames In]. tauto.
Defined.

(** ** C8 *)

(** C8: [drawTextWithShadow] draws its text under a shadow of color
    rgba(0, 0, 0, 0.8), blur 10 and zero offsets, and returns with the
    shadow reset (transparent color, blur 0, offsets still 0), so that
    nothing drawn afterwards inherits it; every label of a completed render
    was drawn under that shadow. *)
Theorem label_shadow_applied_then_reset :
  (forall ctx text x y f c a b,
      let ctx' := drawTextWithShadow ctx text (Some x) (Some y) f c a b in
      exists st,
        ops ctx' = (ops ctx ++ [OpFillText st text x y])%list
        /\ shadowColor st = "rgba(0, 0, 0, 0.8)"
        /\ shadowBlur st = 10
        /\ shadowOffsetX st = 0
        /\ shadowOffsetY st = 0)
  /\ (forall ctx text x y f c a b,
         let ctx' := drawTextWithShadow ctx text x y f c a b in
         shadowColor (state ctx') = "transparent"
         /\ shadowBlur (state ctx') = 0
         /\ shadowOffsetX (state ctx') = 0
         /\ shadowOffsetY (state ctx') = 0
         /\ noShadow (state ctx') = true)
  /\ (forall loadImage positionMessage largeNumberText s url data c,
         renderCanvas loadImage positionMessage largeNumberText
             s url data = Completes c ->
         Forall (fun op => dropShadow (opState op) = true) (labels c)).
Proof.
  split; [| split].
  - intros ctx text x y f c a b ctx'. subst ctx'.
    rewrite drawTextWithShadow_ops. eexists. split; [reflexivity |].
    repeat split.
  - intros ctx text x y f c a b ctx'. subst ctx'.
    rewrite drawTextWithShadow_state. repeat split.
  - intros loadImage positionMessage largeNumberText s url data c Hrun.
    destruct (renderCanvas_completes_inv _ _ _ _ _ _ _ Hrun)
      as (img & _ & _ & _ & Hops).
    rewrite (labels_of_render c img _ Hops (labelOps_all_text _ _ _ _)).
    apply labelOps_shadow.
Qed.

(** C8 at the brain render of scenario B. *)
Lemma label_shadow_applied_then_reset_scenarioB :
  exists c,
    renderCanvas sampleLoad sampleTypeError sampleLargeText
        BrainSet BASE_IMAGE_BRAIN_URL
      scenarioB = Completes c
    /\ List.length (labels c) = 4%nat
    /\ Forall (fun op => dropShadow (opState op) = true) (labels c).
Proof.
  eexists. split; [reflexivity |]. split; [reflexivity |].
  apply (proj2 (proj2 label_shadow_applied_then_reset) sampleLoad
           sampleTypeError sampleLargeText
               BrainSet BASE_IMAGE_BRAIN_URL scenarioB).
  reflexivity.
Defined.

(** ** C10 *)

(** C10, as stated, fails: the key constructor is outside the four names of
    the animal shape, yet the lookup in the positions table finds the member
    inherited from [Object.prototype], nothing throws, and the render
    returns an image. *)
Lemma inherited_key_does_not_fail_render :
  ~ In "constructor" (shapeNames AnimalSet)
  /\ In "constructor" (keys withConstructor)
  /\ generateAnimalImage sampleLoad sampleDataURL sampleTypeError sampleLargeText
       BASE_IMAGE_ANIMALS_URL withConstructor
     = Completes
         ("data:image/png;" ++ BASE_IMAGE_ANIMALS_URL ++ ",40%,55%,5%,10%").
Proof.
  split; [| split].
  - cbn [shapeNames In]. intuition discriminate.
  - cbn [withConstructor keys map fst In]. tauto.
  - reflexivity.
Qed.

(** C10 (amended): if the dataset passed to a render function contains a
    key that is neither one of the four names of the shape nor the name of a
    member of [Object.prototype], the render fails and returns no image: the
    error it raises carries a message that names the render (animal or
    brain) followed by the message of the cause, which, once the base image
    has loaded, is the [TypeError] of the position lookup. *)
Theorem unknown_key_fails_render
  (loadImage : string -> Completion Image) (toDataURL : Canvas -> string -> string)
  (positionMessage : string)
      (largeNumberText : Z -> string) (s : Shape) (url : string) (data : JsObject)
  (k : string) :
  In k (keys data) ->
  ~ In k (shapeNames s) ->
  ~ In k objectPrototypeKeys ->
  exists cause,
    generateImage loadImage toDataURL positionMessage largeNumberText s url data
    = Throws (ErrorObject
                ("Error during " ++ shapeWord s ++ " image processing: "
                 ++ cause))
    /\ (forall img, loadImage url = Completes img -> cause = positionMessage).
Proof.
  intros Hin Hname Hproto.
  pose proof (getProp_undefined s k Hname Hproto) as Hundef.
  rewrite generateImage_unfold, renderCanvas_unfold.
  destruct (loadImage url) as [img | e]; cbn [bind].
  - rewrite (drawLabels_throws positionMessage largeNumberText
      (shapePositions s) _
               (entries data) (ex_intro _ k (conj Hin Hundef))).
    cbn [bind errorMessage]. exists positionMessage. split; [reflexivity | auto].
  - exists (errorMessage e). split; [reflexivity | discriminate].
Qed.

(** The amended C10 at a dataset with the key cavalo. *)
Lemma unknown_key_fails_render_cavalo :
  exists cause,
    generateImage sampleLoad sampleDataURL sampleTypeError sampleLargeText
        AnimalSet
      BASE_IMAGE_ANIMALS_URL withUnknown
    = Throws (ErrorObject
                ("Error during " ++ shapeWord AnimalSet
                 ++ " image processing: " ++ cause))
    /\ (forall img,
           sampleLoad BASE_IMAGE_ANIMALS_URL = Completes img ->
           cause = sampleTypeError).
Proof.
  apply (unknown_key_fails_render sampleLoad sampleDataURL sampleTypeError sampleLargeText
           AnimalSet BASE_IMAGE_ANIMALS_URL withUnknown "cavalo").
  - cbn [withUnknown keys map fst In]. tauto.
  - cbn [shapeNames In]. intuition discriminate.
  - cbn [objectPrototypeKeys In]. intuition discriminate.
Defined.

(* ------------------------------------------------------------------ *)
(** * Further properties of the handler *)

Section HandlerFacts.

Variable loadImage : string -> Completion Image.
Variable toDataURL : Canvas -> string -> string.
Variable positionMessage : string.
Variable bodyMessage : string.
Variable largeNumberText : Z -> string.

Local Abbreviation handle :=
  (handler loadImage toDataURL positionMessage bodyMessage largeNumberText).
Local Abbreviation animalImageOf :=
  (generateAnimalImage loadImage toDataURL positionMessage largeNumberText
     BASE_IMAGE_ANIMALS_URL).
Local Abbreviation brainImageOf :=
  (generateBrainImage loadImage toDataURL positionMessage largeNumberText
     BASE_IMAGE_BRAIN_URL).

Lemma handler_not_POST (race : bool) (req : Request) :
  method req <> "POST" -> handle race req = methodNotAllowed.
Proof.
  intros Hm. unfold handler.
  apply String.eqb_neq in Hm. now rewrite Hm.
Qed.

(** The handler on a POST request, branch by branch. *)
Lemma handler_POST (race : bool) (req : Request) :
  method req = "POST" ->
  handle race req
  = match body req with
    | None => serverError bodyMessage
    | Some b =>
        match animalData b, brainData b with
        | Some animal, Some brain =>
            match promiseAll race (animalImageOf animal) (brainImageOf brain) with
            | Completes images =>
                {| status := 200;
                   json := JsonImages (fst images) (snd images) |}
            | Throws (ErrorObject message) => serverError message
            | Throws (OtherValue _) =>
                serverError "An unknown error occurred."
            end
        | _, _ => badRequest
        end
    end.
Proof.
  intros Hm. unfold handler. rewrite Hm, String.eqb_refl. cbn [negb].
  destruct (body req) as [b |]; cbn [destructureBody bind]; [| reflexivity].
  destruct (animalData b) as [animal |], (brainData b) as [brain |];
    try reflexivity.
  destruct (promiseAll race (animalImageOf animal) (brainImageOf brain))
    as [images | [message | other]]; reflexivity.
Qed.

(** The status of the answer to a POST request is never 405. *)
Lemma handler_POST_status (race : bool) (req : Request) :
  method req = "POST" -> status (handle race req) <> 405.
Proof.
  intros Hm. rewrite (handler_POST race req Hm).
  destruct (body req) as [b |]; [| discriminate].
  destruct (animalData b), (brainData b); try discriminate.
  destruct (promiseAll _ _ _) as [images | [message | other]]; discriminate.
Qed.

(** X1: the handler answers 405 "Method Not Allowed" exactly to the requests
    whose method is not POST, whatever their body. *)
Theorem only_POST_is_accepted (race : bool) (req : Request) :
  handle race req = methodNotAllowed <-> method req <> "POST".
Proof.
  split.
  - intros Hresp Hm. apply (handler_POST_status race req Hm).
    now rewrite Hresp.
  - apply handler_not_POST.
Qed.

(** X2: the handler answers 400 exactly to the POST requests that have a
    body in which [animalData] or [brainData] is missing (or falsy). *)
Theorem missing_dataset_is_bad_request (race : bool) (req : Request) :
  handle race req = badRequest
  <-> method req = "POST"
      /\ exists b, body req = Some b
                   /\ (animalData b = None \/ brainData b = None).
Proof.
  split.
  - intros Hresp.
    destruct (string_dec (method req) "POST") as [Hm | Hm].
    + split; [exact Hm |]. rewrite (handler_POST race req Hm) in Hresp.
      destruct (body req) as [b |]; [| discriminate].
      exists b. split; [reflexivity |].
      destruct (animalData b), (brainData b); auto.
      destruct (promiseAll _ _ _) as [images | [message | other]];
        discriminate.
    + rewrite (handler_not_POST race req Hm) in Hresp. discriminate.
  - intros (Hm & b & Hb & Hmiss). rewrite (handler_POST race req Hm), Hb.
    destruct Hmiss as [-> | ->]; [| destruct (animalData b)]; reflexivity.
Qed.

(** X3: a POST request with both datasets whose renders both complete is
    answered 200 with the result of the animal render as animalImage and
    the result of the brain render as brainImage, and this is the only case
    in which a response carries images. *)
Theorem images_iff_both_renders_complete (race : bool) (req : Request)
  (animalImage brainImage : string) :
  let bothComplete :=
    method req = "POST"
    /\ exists b animal brain,
         body req = Some b
         /\ animalData b = Some animal
         /\ brainData b = Some brain
         /\ animalImageOf animal = Completes animalImage
         /\ brainImageOf brain = Completes brainImage in
  (handle race req
   = {| status := 200; json := JsonImages animalImage brainImage |}
   <-> bothComplete)
  /\ (responseImages (handle race req) = Some (animalImage, brainImage)
      <-> bothComplete).
Proof.
  intros bothComplete.
  assert (Hfrom : responseImages (handle race req)
                  = Some (animalImage, brainImage) -> bothComplete).
  { intros Hresp. unfold bothComplete.
    destruct (string_dec (method req) "POST") as [Hm | Hm].
    - split; [exact Hm |].
      rewrite (handler_POST race req Hm) in Hresp.
      destruct (body req) as [b |]; [| discriminate].
      destruct (animalData b) as [animal |] eqn:Ha,
               (brainData b) as [brain |] eqn:Hb; try discriminate.
      exists b, animal, brain.
      destruct (animalImageOf animal) as [ia | ea],
               (brainImageOf brain) as [ib | eb]; cbn [promiseAll] in *.
      + cbn in Hresp. inversion Hresp; subst. now repeat split.
      + destruct eb; discriminate.
      + destruct ea; discriminate.
      + destruct race, ea, eb; discriminate.
    - rewrite (handler_not_POST race req Hm) in Hresp. discriminate. }
  assert (Hto : bothComplete ->
                handle race req
                = {| status := 200;
                     json := JsonImages animalImage brainImage |}).
  { intros (Hm & b & animal & brain & Hbody & Ha & Hb & Hia & Hib).
    rewrite (handler_POST race req Hm), Hbody, Ha, Hb, Hia, Hib.
    reflexivity. }
  split; split; auto.
  - intros Hresp. apply Hfrom. now rewrite Hresp.
  - intros Hboth. now rewrite (Hto Hboth).
Qed.

(** X4: a POST request without a body is not answered 400: destructuring
    the missing body throws inside the [try] block, and the answer is the
    500 failure with the message of that error. *)
Theorem missing_body_is_server_error (race : bool) (req : Request) :
  method req = "POST" ->
  body req = None ->
  handle race req = serverError bodyMessage.
Proof.
  intros Hm Hb. now rewrite (handler_POST race req Hm), Hb.
Qed.

End HandlerFacts.

(** X2 at a POST request that carries only the animal dataset. *)
Lemma missing_dataset_is_bad_request_example :
  handler brainUndecodable sampleDataURL sampleTypeError sampleBodyError
      sampleLargeText true
    (postRequest (Some scenarioA) None) = badRequest.
Proof.
  apply (proj2 (missing_dataset_is_bad_request brainUndecodable sampleDataURL
                  sampleTypeError sampleBodyError sampleLargeText true
                  (postRequest (Some scenarioA) None))).
  split; [reflexivity |].
  eexists. split; [reflexivity |]. right; reflexivity.
Defined.

(** X4 at a POST request with no body. *)
Lemma missing_body_is_server_error_example :
  handler sampleLoad sampleDataURL sampleTypeError sampleBodyError
      sampleLargeText true
    {| method := "POST"; body := None |}
  = serverError sampleBodyError.
Proof.
  apply (missing_body_is_server_error sampleLoad sampleDataURL sampleTypeError
           sampleBodyError sampleLargeText true {| method := "POST"; body := None |});
    reflexivity.
Defined.

(** The result of a render depends on the loader at the URL it is given
    only. *)
Lemma generateImage_ext (load1 load2 : string -> Completion Image)
  (toDataURL : Canvas -> string -> string) (positionMessage : string)
      (largeNumberText : Z -> string)
  (s : Shape) (url : string) (data : JsObject) :
  load1 url = load2 url ->
  generateImage load1 toDataURL positionMessage largeNumberText s url data
  = generateImage load2 toDataURL positionMessage largeNumberText s url data.
Proof.
  intros Hsame.
  now rewrite !generateImage_unfold, !renderCanvas_unfold, Hsame.
Qed.

(** X5: the handler reads the environment at the two base image URLs only:
    two loaders that agree on the animal and on the brain base image give
    the same response to every request. *)
Theorem handler_loads_only_base_images
  (load1 load2 : string -> Completion Image)
  (toDataURL : Canvas -> string -> string)
  (positionMessage bodyMessage : string)
  (largeNumberText : Z -> string) (race : bool) (req : Request) :
  load1 BASE_IMAGE_ANIMALS_URL = load2 BASE_IMAGE_ANIMALS_URL ->
  load1 BASE_IMAGE_BRAIN_URL = load2 BASE_IMAGE_BRAIN_URL ->
  handler load1 toDataURL positionMessage bodyMessage largeNumberText race req
  = handler load2 toDataURL positionMessage bodyMessage largeNumberText
      race req.
Proof.
  intros Ha Hb.
  destruct (string_dec (method req) "POST") as [Hm | Hm].
  - rewrite !(handler_POST _ _ _ _ _ race req Hm).
    destruct (body req) as [b |]; [| reflexivity].
    destruct (animalData b) as [animal |], (brainData b) as [brain |];
      try reflexivity.
    change (generateAnimalImage load1 toDataURL positionMessage
              largeNumberText)
      with (generateImage load1 toDataURL positionMessage largeNumberText
              AnimalSet).
    change (generateBrainImage load1 toDataURL positionMessage
              largeNumberText)
      with (generateImage load1 toDataURL positionMessage largeNumberText
              BrainSet).
    rewrite (generateImage_ext load1 load2 _ _ _ AnimalSet _ animal Ha).
    rewrite (generateImage_ext load1 load2 _ _ _ BrainSet _ brain Hb).
    reflexivity.
  - now rewrite !(handler_not_POST _ _ _ _ _ race req Hm).
Qed.

(** A loader that knows the two base images and nothing else. *)
Lemma handler_loads_only_base_images_example :
  handler sampleLoad sampleDataURL sampleTypeError sampleBodyError
      sampleLargeText true
    (postRequest (Some scenarioA) (Some scenarioB))
  = handler
      (fun url =>
         if ((url =? BASE_IMAGE_ANIMALS_URL) || (url =? BASE_IMAGE_BRAIN_URL))%string
         then sampleLoad url
         else Throws (ErrorObject "Not found"))
      sampleDataURL sampleTypeError sampleBodyError sampleLargeText true
      (postRequest (Some scenarioA) (Some scenarioB)).
Proof.
  apply (handler_loads_only_base_images sampleLoad
           (fun url =>
              if ((url =? BASE_IMAGE_ANIMALS_URL)
                  || (url =? BASE_IMAGE_BRAIN_URL))%string
              then sampleLoad url
              else Throws (ErrorObject "Not found"))
           sampleDataURL sampleTypeError sampleBodyError sampleLargeText true
           (postRequest (Some scenarioA) (Some scenarioB)));
    reflexivity.
Defined.

(** X6: datasets without any entry pass the validation of the handler and
    both renders: when the two base images load, the answer is 200 and each
    image is the encoding of a canvas of the size of its base image on
    which the base image alone was drawn. *)
Theorem empty_datasets_give_bare_images
  (loadImage : string -> Completion Image)
  (toDataURL : Canvas -> string -> string)
  (positionMessage bodyMessage : string)
  (largeNumberText : Z -> string) (race : bool) (req : Request)
  (animalBase brainBase : Image) :
  method req = "POST" ->
  body req = Some {| animalData := Some []; brainData := Some [] |} ->
  loadImage BASE_IMAGE_ANIMALS_URL = Completes animalBase ->
  loadImage BASE_IMAGE_BRAIN_URL = Completes brainBase ->
  let bare img :=
    {| width := imgWidth img; height := imgHeight img;
       context := {| state := defaultState;
                     ops := [OpDrawImage img 0 0] |} |} in
  handler loadImage toDataURL positionMessage bodyMessage largeNumberText
      race req
  = {| status := 200;
       json := JsonImages (toDataURL (bare animalBase) "image/png")
                 (toDataURL (bare brainBase) "image/png") |}.
Proof.
  intros Hm Hb Ha Hbr bare.
  rewrite (handler_POST _ _ _ _ _ race req Hm), Hb.
  cbn [animalData brainData].
  unfold generateAnimalImage, generateBrainImage, animalCanvas, brainCanvas.
  rewrite Ha, Hbr. reflexivity.
Qed.

Lemma empty_datasets_give_bare_images_example :
  handler sampleLoad sampleDataURL sampleTypeError sampleBodyError
      sampleLargeText true
    (postRequest (Some []) (Some []))
  = {| status := 200;
       json := JsonImages ("data:image/png;" ++ BASE_IMAGE_ANIMALS_URL)
                 ("data:image/png;" ++ BASE_IMAGE_BRAIN_URL) |}.
Proof.
  apply (empty_datasets_give_bare_images sampleLoad sampleDataURL
           sampleTypeError sampleBodyError sampleLargeText true
           (postRequest (Some []) (Some []))
           {| imgWidth := 1000; imgHeight := 1200;
              imgSource := BASE_IMAGE_ANIMALS_URL |}
           {| imgWidth := 1000; imgHeight := 1200;
              imgSource := BASE_IMAGE_BRAIN_URL |});
    reflexivity.
Defined.

(* ------------------------------------------------------------------ *)
(** * Further properties of the renders *)

Lemma hasOwnPosition_iff (s : Shape) (k : string) :
  hasOwnPosition s k = true <-> In k (shapeNames s).
Proof.
  unfold hasOwnPosition. split.
  - destruct (getOwn (shapePositions s) k) as [p |] eqn:Hown;
      [intros _ | discriminate].
    apply getOwn_Some_In in Hown.
    destruct s; cbn [shapePositions animalPositions brainPositions In] in Hown;
      cbn [shapeNames In];
      repeat (destruct Hown as [Hown | Hown];
              [inversion Hown; tauto |]);
      contradiction.
  - intros Hin. destruct (shape_names_have_positions s k Hin) as [p Hp].
    unfold getProp in Hp.
    destruct (getOwn (shapePositions s) k); [reflexivity |].
    destruct (existsb _ _); discriminate.
Qed.


(** What the first loop returns when it returns a name. *)
Lemma findHighest_Some (es : list (string * Z)) (k : string) :
  fst (findHighest es) = Some k ->
  exists v,
    In (k, v) es
    /\ findHighest es = (Some k, v)
    /\ -1 < v
    /\ Forall (fun e => snd e <= v) es.
Proof.
  unfold findHighest. intros Hsel.
  destruct (fold_updateHighest_spec es None (-1))
    as [[Hr _] | (pre & k' & post & He & Hk & Hm & Hpre & Hpost)].
  - rewrite Hr in Hsel. discriminate.
  - destruct (fold_left updateHighest es (None, -1)) as [h m].
    cbn [fst snd] in *. rewrite Hk in Hsel. inversion Hsel; subst k'.
    rewrite Hk.
    exists m. repeat split; auto.
    + rewrite He. apply in_or_app; right; now left.
    + rewrite He. apply Forall_app. split.
      * eapply Forall_impl; [| exact Hpre]. cbn beta; intros; lia.
      * constructor; [cbn [snd]; lia | exact Hpost].
Qed.

Lemma labelOps_length_own
    (largeNumberText : Z -> string) (s : Shape) (h : option string)
  (es : list (string * Z)) :
  List.length (labelOps largeNumberText (shapePositions s) h es)
  = List.length (filter (fun e => hasOwnPosition s (fst e)) es).
Proof.
  induction es as [| [k v] rest IH]; [reflexivity |].
  change (labelOps largeNumberText (shapePositions s) h ((k, v) :: rest))
    with (match getProp (shapePositions s) k with
          | PPoint p =>
              [OpFillText (labelState (strictEq k h)) (numberToString largeNumberText v ++ "%")
                 (px p) (py p)]
          | _ => []
          end ++ labelOps largeNumberText (shapePositions s) h rest)%list.
  cbn [filter fst]. unfold hasOwnPosition at 1, getProp.
  destruct (getOwn (shapePositions s) k) as [p |].
  - cbn [app List.length]. now rewrite IH.
  - destruct (existsb _ _); cbn [app]; exact IH.
Qed.

(** X7: when the base image cannot be loaded, the render fails whatever the
    dataset is, with an [Error] whose message names the render and ends with
    the message of the loading error. *)
Theorem decode_failure_is_wrapped
  (loadImage : string -> Completion Image)
  (toDataURL : Canvas -> string -> string) (positionMessage : string)
      (largeNumberText : Z -> string)
  (s : Shape) (url : string) (data : JsObject) (err : Thrown) :
  loadImage url = Throws err ->
  generateImage loadImage toDataURL positionMessage largeNumberText s url data
  = Throws (ErrorObject
              ("Error during " ++ shapeWord s ++ " image processing: "
               ++ errorMessage err)).
Proof.
  intros Hload.
  now rewrite generateImage_unfold, renderCanvas_unfold, Hload.
Qed.

Lemma decode_failure_is_wrapped_example :
  generateImage brainUndecodable sampleDataURL sampleTypeError sampleLargeText
      BrainSet
    BASE_IMAGE_BRAIN_URL scenarioB
  = Throws (ErrorObject
              "Error during brain image processing: Unsupported image type").
Proof.
  apply (decode_failure_is_wrapped brainUndecodable sampleDataURL
           sampleTypeError sampleLargeText
               BrainSet BASE_IMAGE_BRAIN_URL scenarioB
           (ErrorObject "Unsupported image type")).
  reflexivity.
Defined.


(** X9: on a completed render the number of labels is the number of entries
    whose name is a name of the shape: an entry under an inherited name
    (constructor, toString, ...) is skipped without notice. *)
Theorem labels_count_shape_names
  (loadImage : string -> Completion Image) (positionMessage : string)
      (largeNumberText : Z -> string)
  (s : Shape) (url : string) (data : JsObject) (c : Canvas) :
  renderCanvas loadImage positionMessage largeNumberText
      s url data = Completes c ->
  List.length (labels c)
  = List.length (filter (fun e => hasOwnPosition s (fst e)) data)
  /\ (forall k, hasOwnPosition s k = true <-> In k (shapeNames s)).
Proof.
  intros Hrun. split; [| apply hasOwnPosition_iff].
  destruct (renderCanvas_completes_inv _ _ _ _ _ _ _ Hrun)
    as (img & _ & _ & _ & Hops).
  rewrite (labels_of_render c img _ Hops (labelOps_all_text _ _ _ _)).
  apply labelOps_length_own.
Qed.

Lemma labels_count_shape_names_example :
  exists c,
    renderCanvas sampleLoad sampleTypeError sampleLargeText
        AnimalSet BASE_IMAGE_ANIMALS_URL
      withConstructor = Completes c
    /\ List.length withConstructor = 5%nat
    /\ List.length (labels c) = 4%nat.
Proof.
  eexists. split; [reflexivity |]. split; [reflexivity |].
  apply (proj1 (labels_count_shape_names sampleLoad sampleTypeError
      sampleLargeText AnimalSet
                  BASE_IMAGE_ANIMALS_URL withConstructor _ eq_refl)).
Defined.

Lemma labelOps_cons (largeNumberText : Z -> string)
  (positions : list (string * Point)) (h : option string)
  (k : string) (v : Z) (rest : list (string * Z)) :
  labelOps largeNumberText positions h ((k, v) :: rest)
  = (match getProp positions k with
     | PPoint p =>
         [OpFillText (labelState (strictEq k h)) (numberToString largeNumberText v ++ "%")
            (px p) (py p)]
     | _ => []
     end ++ labelOps largeNumberText positions h rest)%list.
Proof. reflexivity. Qed.

Lemma getOwn_shape_name (s : Shape) (k : string) :
  In k (shapeNames s) ->
  exists p, getOwn (shapePositions s) k = Some p
            /\ getProp (shapePositions s) k = PPoint p.
Proof.
  intros Hin. destruct (shape_names_have_positions s k Hin) as [p Hp].
  exists p. split; [| exact Hp]. unfold getProp in Hp.
  destruct (getOwn (shapePositions s) k) as [p' |]; [congruence |].
  destruct (existsb _ _); discriminate.
Qed.

Lemma filter_none {A : Type} (f : A -> bool) (l : list A) :
  Forall (fun x => f x = false) l -> filter f l = [].
Proof.
  induction 1 as [| x l Hx _ IH]; [reflexivity |].
  cbn [filter]. now rewrite Hx.
Qed.

Lemma fold_right_max_start (m v : Z) (l : list Z) :
  fold_right Z.max (Z.max m v) l = Z.max v (fold_right Z.max m l).
Proof.
  induction l as [| a l IH]; cbn [fold_right]; [lia |]. rewrite IH. lia.
Qed.

Lemma fold_updateHighest_max (es : list (string * Z)) :
  forall h m,
    snd (fold_left updateHighest es (h, m))
    = fold_right Z.max m (map snd es).
Proof.
  induction es as [| [k v] rest IH]; intros h m; [reflexivity |].
  cbn [fold_left map snd fold_right].
  rewrite <- fold_right_max_start.
  destruct (Z_lt_le_dec m v) as [Hlt | Hle].
  - rewrite (updateHighest_replaces (h, m) k v Hlt), IH.
    now rewrite Z.max_r by lia.
  - rewrite (updateHighest_keeps (h, m) k v Hle), IH.
    now rewrite Z.max_l by lia.
Qed.

Lemma numberToString_safe (largeNumberText : Z -> string) (v : Z) :
  isSafeInteger v = true -> numberToString largeNumberText v = string_of_Z v.
Proof. unfold numberToString. now intros ->. Qed.

(** X10: when the base image loads and every key is a name of the shape,
    the labels of the render follow the entries one by one, in the order of
    the entries: the label of an entry is the text the template literal
    prints for its value, followed by a percent sign; it is anchored at the
    position the table gives for the name of the entry and centered
    horizontally and vertically.  For a value that is a safe integer the
    text is its decimal notation. *)
Theorem labels_follow_entries
  (loadImage : string -> Completion Image) (positionMessage : string)
  (largeNumberText : Z -> string) (s : Shape) (url : string)
  (data : JsObject) (img : Image) :
  loadImage url = Completes img ->
  (forall k, In k (keys data) -> In k (shapeNames s)) ->
  exists c,
    renderCanvas loadImage positionMessage largeNumberText s url data
    = Completes c
    /\ Forall2
         (fun e op =>
            exists p st text,
              getOwn (shapePositions s) (fst e) = Some p
              /\ op = OpFillText st text (px p) (py p)
              /\ text = numberToString largeNumberText (snd e) ++ "%"
              /\ (isSafeInteger (snd e) = true ->
                  text = string_of_Z (snd e) ++ "%")
              /\ textAlign st = "center"
              /\ textBaseline st = "middle")
         data (labels c).
Proof.
  intros Hload Hsub.
  destruct (render_known_names loadImage positionMessage largeNumberText s url
              data img Hload Hsub) as (c & Hrun & Hlabels & _).
  exists c. split; [exact Hrun |]. rewrite Hlabels. unfold entries.
  generalize (fst (findHighest data)) as h. intros h. clear Hrun Hlabels.
  induction data as [| [k v] rest IH]; [constructor |].
  rewrite labelOps_cons.
  destruct (getOwn_shape_name s k) as (p & Hown & Hp);
    [apply Hsub; now left |].
  rewrite Hp. cbn [app]. constructor.
  - exists p, (labelState (strictEq k h)),
           (numberToString largeNumberText v ++ "%").
    cbn [fst snd]. repeat split; auto.
    intros Hsafe. now rewrite (numberToString_safe largeNumberText v Hsafe).
  - apply IH. intros k' Hk'. apply Hsub. now right.
Qed.

(** Scenario B: the labels 20%, 30%, 25%, 25% at the positions of pensante,
    atuante, razao and emocao. *)
Lemma labels_follow_entries_scenarioB :
  exists c,
    renderCanvas sampleLoad sampleTypeError sampleLargeText BrainSet
      BASE_IMAGE_BRAIN_URL scenarioB = Completes c
    /\ Forall2
         (fun e op =>
            exists p st text,
              getOwn (shapePositions BrainSet) (fst e) = Some p
              /\ op = OpFillText st text (px p) (py p)
              /\ text = numberToString sampleLargeText (snd e) ++ "%"
              /\ (isSafeInteger (snd e) = true ->
                  text = string_of_Z (snd e) ++ "%")
              /\ textAlign st = "center"
              /\ textBaseline st = "middle")
         scenarioB (labels c).
Proof.
  apply (labels_follow_entries sampleLoad sampleTypeError sampleLargeText
           BrainSet BASE_IMAGE_BRAIN_URL scenarioB
           {| imgWidth := 1000; imgHeight := 1200;
              imgSource := BASE_IMAGE_BRAIN_URL |}).
  - reflexivity.
  - cbn [scenarioB keys map fst shapeNames In]. tauto.
Defined.

(** X11: on a completed render, a label in the emphasized style is the
    label of the name the first loop selected: it shows the largest value
    of the dataset and stands at the position of that name. *)
Theorem emphasized_label_is_maximum
  (loadImage : string -> Completion Image) (positionMessage : string)
      (largeNumberText : Z -> string)
  (s : Shape) (url : string) (data : JsObject) (c : Canvas) (op : DrawOp) :
  wfObject data ->
  renderCanvas loadImage positionMessage largeNumberText
      s url data = Completes c ->
  In op (labels c) ->
  emphasized op = true ->
  exists k v p,
    fst (findHighest (entries data)) = Some k
    /\ getOwn data k = Some v
    /\ Forall (fun e => snd e <= v) data
    /\ getOwn (shapePositions s) k = Some p
    /\ op = OpFillText (labelState true) (numberToString largeNumberText v ++ "%") (px p) (py p).
Proof.
  intros Hwf Hrun Hin Hemph.
  destruct (renderCanvas_completes_inv _ _ _ _ _ _ _ Hrun)
    as (img & _ & _ & _ & Hops).
  rewrite (labels_of_render c img _ Hops (labelOps_all_text _ _ _ _)) in Hin.
  apply labelOps_In in Hin as (k & v & p & Hentry & Hown & ->).
  rewrite emphasized_labelState in Hemph. unfold entries in *.
  destruct (fst (findHighest data)) as [k0 |] eqn:Hsel; [| discriminate].
  cbn [strictEq] in Hemph. apply String.eqb_eq in Hemph. subst k0.
  destruct (findHighest_Some data k Hsel) as (v0 & Hmax & _ & _ & Hall).
  assert (Hv : Some v = Some v0).
  { rewrite <- (getOwn_In data k v Hwf Hentry).
    exact (getOwn_In data k v0 Hwf Hmax). }
  inversion Hv; subst v0.
  exists k, v, p. repeat split; auto.
  - now apply getOwn_In.
  - cbn [strictEq]. now rewrite String.eqb_refl.
Qed.

(** Scenario B: the emphasized label is the 30% of atuante. *)
Lemma emphasized_label_is_maximum_scenarioB :
  exists c,
    renderCanvas sampleLoad sampleTypeError sampleLargeText
        BrainSet BASE_IMAGE_BRAIN_URL
      scenarioB = Completes c
    /\ exists k v p,
         fst (findHighest (entries scenarioB)) = Some k
         /\ getOwn scenarioB k = Some v
         /\ Forall (fun e => snd e <= v) scenarioB
         /\ getOwn (shapePositions BrainSet) k = Some p
         /\ OpFillText (labelState true) "30%" 500 710
            = OpFillText (labelState true) (numberToString sampleLargeText v ++ "%") (px p) (py p).
Proof.
  eexists. split; [reflexivity |].
  eapply (emphasized_label_is_maximum sampleLoad sampleTypeError sampleLargeText
      BrainSet
            BASE_IMAGE_BRAIN_URL scenarioB).
  - unfold wfObject, keys, scenarioB; cbn [map fst].
    repeat constructor; cbn [In]; intuition discriminate.
  - reflexivity.
  - vm_compute. tauto.
  - reflexivity.
Defined.

(** X12: when the name selected by the first loop is not a name of the
    shape (an inherited name that carries the largest value), a completed
    render has no emphasized label at all: every label drawn is in the
    normal style. *)
Theorem stray_maximum_suppresses_emphasis
  (loadImage : string -> Completion Image) (positionMessage : string)
      (largeNumberText : Z -> string)
  (s : Shape) (url : string) (data : JsObject) (c : Canvas) (k : string) :
  renderCanvas loadImage positionMessage largeNumberText
      s url data = Completes c ->
  fst (findHighest (entries data)) = Some k ->
  ~ In k (shapeNames s) ->
  filter emphasized (labels c) = []
  /\ Forall (fun op => normalStyle op = true) (labels c).
Proof.
  intros Hrun Hsel Hstray.
  destruct (renderCanvas_completes_inv _ _ _ _ _ _ _ Hrun)
    as (img & _ & _ & _ & Hops).
  rewrite (labels_of_render c img _ Hops (labelOps_all_text _ _ _ _)).
  rewrite Hsel.
  assert (Hall : forall op,
             In op (labelOps largeNumberText
                 (shapePositions s) (Some k) (entries data)) ->
             emphasized op = false /\ normalStyle op = true).
  { intros op Hin.
    apply labelOps_In in Hin as (k' & v & p & _ & Hown & ->).
    rewrite emphasized_labelState, normalStyle_labelState.
    assert (Hne : strictEq k' (Some k) = false).
    { cbn [strictEq]. apply String.eqb_neq. intros ->. apply Hstray.
      apply hasOwnPosition_iff. unfold hasOwnPosition. now rewrite Hown. }
    now rewrite Hne. }
  split.
  - apply filter_none, Forall_forall. intros op Hin. now apply Hall.
  - apply Forall_forall. intros op Hin. now apply Hall.
Qed.

Lemma stray_maximum_suppresses_emphasis_example :
  exists c,
    renderCanvas sampleLoad sampleTypeError sampleLargeText
        AnimalSet BASE_IMAGE_ANIMALS_URL
      withInheritedMax = Completes c
    /\ List.length (labels c) = 4%nat
    /\ filter emphasized (labels c) = []
    /\ Forall (fun op => normalStyle op = true) (labels c).
Proof.
  eexists. split; [reflexivity |]. split; [reflexivity |].
  apply (stray_maximum_suppresses_emphasis sampleLoad sampleTypeError sampleLargeText
           AnimalSet BASE_IMAGE_ANIMALS_URL withInheritedMax _ "constructor").
  - reflexivity.
  - reflexivity.
  - cbn [shapeNames In]. intuition discriminate.
Defined.

(** X13: the running maximum ends as the largest of -1 and of all the
    values of the entries. *)
Theorem max_percentage_is_maximum (data : JsObject) :
  snd (findHighest (entries data)) = fold_right Z.max (-1) (map snd data).
Proof. apply fold_updateHighest_max. Qed.

(** X14: the first loop returns no name exactly when no value of the
    dataset is greater than -1 (in particular for a dataset without
    entries). *)
Theorem no_selection_iff (data : JsObject) :
  fst (findHighest (entries data)) = None
  <-> Forall (fun e => snd e <= -1) data.
Proof.
  unfold entries, findHighest. split.
  - intros Hnone.
    destruct (fold_updateHighest_spec data None (-1))
      as [[_ Hall] | (pre & k & post & _ & Hk & _)]; [exact Hall |].
    congruence.
  - intros Hall. now rewrite (fold_updateHighest_stable data None (-1) Hall).
Qed.



(** X17: the two shapes have no name in common, so a dataset with entries
    whose names are those of the other shape is rejected by a render. *)
Theorem dataset_of_other_shape_is_rejected
  (loadImage : string -> Completion Image)
  (toDataURL : Canvas -> string -> string) (positionMessage : string)
      (largeNumberText : Z -> string)
  (s other : Shape) (url : string) (data : JsObject) :
  s <> other ->
  data <> [] ->
  (forall k, In k (keys data) -> In k (shapeNames other)) ->
  exists cause,
    generateImage loadImage toDataURL positionMessage largeNumberText s url data
    = Throws (ErrorObject
                ("Error during " ++ shapeWord s ++ " image processing: "
                 ++ cause)).
Proof.
  intros Hne Hdata Hsub.
  destruct data as [| [k v] rest]; [congruence |].
  assert (Hk : getProp (shapePositions s) k = PUndefined).
  { assert (Hin : In k (shapeNames other)) by (apply Hsub; now left).
    destruct s, other; try congruence; cbn [shapeNames In] in Hin;
      repeat (destruct Hin as [<- | Hin]; [reflexivity |]); contradiction. }
  rewrite generateImage_unfold, renderCanvas_unfold.
  destruct (loadImage url) as [img | e]; cbn [bind].
  - rewrite (drawLabels_throws positionMessage largeNumberText
      (shapePositions s) _
               (entries ((k, v) :: rest))
               (ex_intro _ k (conj (or_introl eq_refl) Hk))).
    cbn [bind]. eexists; reflexivity.
  - eexists; reflexivity.
Qed.

(** The brain dataset of scenario B handed to the animal render. *)
Lemma dataset_of_other_shape_is_rejected_example :
  exists cause,
    generateImage sampleLoad sampleDataURL sampleTypeError sampleLargeText
        AnimalSet
      BASE_IMAGE_ANIMALS_URL scenarioB
    = Throws (ErrorObject
                ("Error during " ++ shapeWord AnimalSet
                 ++ " image processing: " ++ cause)).
Proof.
  apply (dataset_of_other_shape_is_rejected sampleLoad sampleDataURL
           sampleTypeError sampleLargeText
               AnimalSet BrainSet BASE_IMAGE_ANIMALS_URL scenarioB).
  - discriminate.
  - discriminate.
  - cbn [scenarioB keys map fst shapeNames In]. tauto.
Defined.

(** X18: the details of a 500 answer are the message of the error raised
    for a missing body, or the message by which a render names itself; the
    fallback text for a thrown value that is no [Error] is never used. *)
Theorem server_error_details
  (loadImage : string -> Completion Image)
  (toDataURL : Canvas -> string -> string)
  (positionMessage bodyMessage : string)
  (largeNumberText : Z -> string) (race : bool) (req : Request)
  (details : string) :
  handler loadImage toDataURL positionMessage bodyMessage largeNumberText
      race req
  = serverError details ->
  method req = "POST"
  /\ ((body req = None /\ details = bodyMessage)
      \/ exists s cause,
           details = "Error during " ++ shapeWord s ++ " image processing: "
                     ++ cause).
Proof.
  intros Hresp.
  destruct (string_dec (method req) "POST") as [Hm | Hm];
    [| rewrite (handler_not_POST _ _ _ _ _ race req Hm) in Hresp; discriminate].
  split; [exact Hm |].
  rewrite (handler_POST _ _ _ _ _ race req Hm) in Hresp.
  destruct (body req) as [b |].
  - right.
    destruct (animalData b) as [animal |], (brainData b) as [brain |];
      try discriminate.
    destruct (generateAnimalImage loadImage toDataURL positionMessage largeNumberText
                BASE_IMAGE_ANIMALS_URL animal) as [ia | ea] eqn:Ha,
             (generateBrainImage loadImage toDataURL positionMessage largeNumberText
                BASE_IMAGE_BRAIN_URL brain) as [ib | eb] eqn:Hb;
      cbn [promiseAll] in Hresp; try discriminate.
    + destruct (generateImage_throws_Error loadImage toDataURL positionMessage largeNumberText
                  BrainSet _ _ eb Hb) as [cause ->].
      inversion Hresp. now exists BrainSet, cause.
    + destruct (generateImage_throws_Error loadImage toDataURL positionMessage largeNumberText
                  AnimalSet _ _ ea Ha) as [cause ->].
      inversion Hresp. now exists AnimalSet, cause.
    + destruct (generateImage_throws_Error loadImage toDataURL positionMessage largeNumberText
                  AnimalSet _ _ ea Ha) as [ca ->].
      destruct (generateImage_throws_Error loadImage toDataURL positionMessage largeNumberText
                  BrainSet _ _ eb Hb) as [cb ->].
      destruct race; inversion Hresp;
        [now exists AnimalSet, ca | now exists BrainSet, cb].
  - left. inversion Hresp. now split.
Qed.

Lemma server_error_details_example :
  method (postRequest (Some scenarioA) (Some scenarioB)) = "POST"
  /\ ((body (postRequest (Some scenarioA) (Some scenarioB)) = None
       /\ "Error during brain image processing: Unsupported image type"
          = sampleBodyError)
      \/ exists s cause,
           "Error during brain image processing: Unsupported image type"
           = "Error during " ++ shapeWord s ++ " image processing: " ++ cause).
Proof.
  apply (server_error_details brainUndecodable sampleDataURL sampleTypeError
           sampleBodyError sampleLargeText
               true (postRequest (Some scenarioA) (Some scenarioB))).
  reflexivity.
Defined.
